(** * WildlifeRecorder: the time-lapse camera of [main-raspbi.py]

    A shallow embedding of the class [TimeLapseCamera]: the timestamp
    codec, the session record kept in [log.txt], the project catalog under
    [projects/], the capture step, the display and the playback state
    machine, followed by the properties of the specification that were
    checked against them and by further properties of the code.

    Conventions.
    - Python [int] is [Z]; [//] and [%] with a positive literal divisor are
      [Z.div] and [Z.modulo] (both floor, as in Python).  Where the divisor
      is a variable, [Py.mod_] raises [ZeroDivisionError] at zero.
    - Python [str] is [string]; a character is a code point below 256.
      Integers print and parse at any length.
    - Values of [time.time()] are rationals ([Q]); every call of
      [time.time()] in the source is an explicit argument of the function
      that makes it.  The text form of a float ([str] and [float(...)]) is
      an interface, [FloatText].
    - An exception that the source does not catch is a [Raise] result.
    - Files: [log.txt] and the directory tree under [projects/] form the
      [world] that the methods read and write.  A path built with
      [os.path.join] is the pair of a project name and a file name. *)

From Stdlib Require Import ZArith QArith List String Ascii Bool Lia Lqa.
From Stdlib Require Import DecimalString DecimalZ.
Import ListNotations.

Local Open Scope string_scope.
Local Open Scope Z_scope.

(** ** Exceptions *)

Inductive exn : Type :=
| FileNotFoundError
| FileExistsError
| NotADirectoryError
| ValueError
| KeyError
| IndexError
| ZeroDivisionError.

Inductive result (A : Type) : Type :=
| Ok (a : A)
| Raise (e : exn).

Arguments Ok {A} a.
Arguments Raise {A} e.

Definition bind {A B : Type} (r : result A) (k : A -> result B) : result B :=
  match r with
  | Ok a => k a
  | Raise e => Raise e
  end.

Notation "x <- r ;; k" := (bind r (fun x => k))
  (at level 61, r at next level, right associativity).
Notation "' pat <- r ;; k" := (bind r (fun x => match x with pat => k end))
  (at level 61, pat pattern, r at next level, right associativity).

Definition of_option {A : Type} (e : exn) (o : option A) : result A :=
  match o with
  | Some a => Ok a
  | None => Raise e
  end.

(** ** Python primitives *)

Module Py.

(** [a % b] *)
Definition mod_ (a b : Z) : result Z :=
  if b =? 0 then Raise ZeroDivisionError else Ok (a mod b).

(** [a / b] on integers, only its failure matters here *)
Definition truediv_ok (b : Z) : result unit :=
  if b =? 0 then Raise ZeroDivisionError else Ok tt.

(** [l[i]]: negative indices count from the end *)
Definition index {A : Type} (l : list A) (i : Z) : result A :=
  let n := Z.of_nat (List.length l) in
  if (0 <=? i) && (i <? n) then of_option IndexError (nth_error l (Z.to_nat i))
  else if (- n <=? i) && (i <? 0) then
    of_option IndexError (nth_error l (Z.to_nat (n + i)))
  else Raise IndexError.

(** [x in l] for a list of strings *)
Definition in_ (x : string) (l : list string) : bool :=
  existsb (String.eqb x) l.

(** [l.index(x)] *)
Fixpoint list_index (x : string) (l : list string) : result Z :=
  match l with
  | [] => Raise ValueError
  | y :: l' =>
      if String.eqb y x then Ok 0
      else i <- list_index x l' ;; Ok (i + 1)
  end.

(** [int(t)]: truncation of a float toward zero *)
Definition int_of_float (q : Q) : Z := Z.quot (Qnum q) (Zpos (Qden q)).

(** *** Strings *)

Definition LF : ascii := "010"%char.
Definition CR : ascii := "013"%char.
Definition nl : string := String LF "".

(** [str.isspace] on one character (code points below 256) *)
Definition is_space (c : ascii) : bool :=
  let n := N_of_ascii c in
  (((9 <=? n) && (n <=? 13)) || ((28 <=? n) && (n <=? 32))
   || (n =? 133) || (n =? 160))%N.

Fixpoint lstrip (s : string) : string :=
  match s with
  | "" => ""
  | String c r => if is_space c then lstrip r else s
  end.

Fixpoint rstrip (s : string) : string :=
  match s with
  | "" => ""
  | String c r =>
      match rstrip r with
      | "" => if is_space c then "" else String c ""
      | r' => String c r'
      end
  end.

(** [s.strip()] *)
Definition strip (s : string) : string := rstrip (lstrip s).

(** Does [c] occur in [s]? *)
Fixpoint occurs (c : ascii) (s : string) : bool :=
  match s with
  | "" => false
  | String a r => Ascii.eqb a c || occurs c r
  end.

(** [str(n)] for an integer *)
Definition str_int (n : Z) : string := NilZero.string_of_int (Z.to_int n).

Definition digit_of (c : ascii) : option (Decimal.uint -> Decimal.uint) :=
  match c with
  | "0"%char => Some Decimal.D0
  | "1"%char => Some Decimal.D1
  | "2"%char => Some Decimal.D2
  | "3"%char => Some Decimal.D3
  | "4"%char => Some Decimal.D4
  | "5"%char => Some Decimal.D5
  | "6"%char => Some Decimal.D6
  | "7"%char => Some Decimal.D7
  | "8"%char => Some Decimal.D8
  | "9"%char => Some Decimal.D9
  | _ => None
  end.

(** The digits of an integer literal: one or more decimal digits, single
    underscores allowed between two digits. [after_digit] tells whether the
    previous character was a digit. *)
Fixpoint digits (after_digit : bool) (s : string) : option Decimal.uint :=
  match s with
  | "" => if after_digit then Some Decimal.Nil else None
  | String c r =>
      match digit_of c with
      | Some d => option_map d (digits true r)
      | None =>
          if Ascii.eqb c "_" && after_digit then digits false r else None
      end
  end.

(** [int(s)] for a string already stripped: optional sign, then digits.
    [None] stands for [ValueError]. *)
Definition int_ (s : string) : option Z :=
  match s with
  | String "-" r => option_map (fun u => Z.of_int (Decimal.Neg u)) (digits false r)
  | String "+" r => option_map Z.of_uint (digits false r)
  | _ => option_map Z.of_uint (digits false s)
  end.

(** *** Text mode files *)

(** Reading in text mode translates ["\r\n"] and ["\r"] to ["\n"]. *)
Fixpoint universal_newlines (s : string) : string :=
  match s with
  | "" => ""
  | String c r =>
      if Ascii.eqb c CR then
        match r with
        | String c2 r2 =>
            if Ascii.eqb c2 LF then String LF (universal_newlines r2)
            else String LF (universal_newlines r)
        | "" => String LF ""
        end
      else String c (universal_newlines r)
  end.

(** [f.readline()]: the line with its newline, and the rest of the file *)
Fixpoint readline (s : string) : string * string :=
  match s with
  | "" => ("", "")
  | String c r =>
      if Ascii.eqb c LF then (String c "", r)
      else let (l, rest) := readline r in (String c l, rest)
  end.

End Py.

(** ** The text form of a float

    [write_log_file] formats [program_start_time] with [str] and
    [read_log_file] parses it back with [float].  Both are taken as an
    interface; [decimal_text] is the instance used at concrete inputs. *)

Class FloatText : Type := {
  float_str : Q -> string;            (* str(t) *)
  float_ : string -> option Q         (* float(s), [None] is ValueError *)
}.

Module Decimal_text.

(** Fractional digits of [r / d], at most [fuel] of them, at least one;
    the expansion stops at the first remainder 0. *)
Fixpoint frac (fuel : nat) (r d : Z) : string :=
  match fuel with
  | O => ""
  | S fuel' =>
      let r10 := 10 * r in
      let more := if r10 mod d =? 0 then "" else frac fuel' (r10 mod d) d in
      Py.str_int (r10 / d) ++ more
  end.

Definition str (q : Q) : string :=
  let d := Zpos (Qden q) in
  let a := Z.abs (Qnum q) in
  let sign := if Qnum q <? 0 then "-" else "" in
  sign ++ Py.str_int (a / d) ++ "." ++ frac (Pos.size_nat (Qden q)) (a mod d) d.

(** Split at the first ["."] *)
Fixpoint split_dot (s : string) : string * option string :=
  match s with
  | "" => ("", None)
  | String c r =>
      if Ascii.eqb c "." then ("", Some r)
      else let (i, f) := split_dot r in (String c i, f)
  end.

Definition unsigned (s : string) : option Q :=
  match split_dot s with
  | (i, None) => option_map (fun u => inject_Z (Z.of_uint u)) (Py.digits false i)
  | (i, Some f) =>
      match Py.digits false i, Py.digits false f with
      | Some u, Some v =>
          let k := Pos.pow 10 (Pos.of_nat (Decimal.nb_digits v)) in
          Some (Qred ((Z.of_uint u * Zpos k + Z.of_uint v) # k))
      | _, _ => None
      end
  end.

Definition parse (s : string) : option Q :=
  match s with
  | String "-" r => option_map Qopp (unsigned r)
  | String "+" r => unsigned r
  | _ => unsigned s
  end.

End Decimal_text.

(** Plain decimal notation, as [str] prints a time of day in epoch
    seconds: ["1700000000.25"].  [str] prints the decimal expansion of the
    value, complete for every value that has a finite one (every float
    has), and [float] reads a decimal exactly; Python prints the shortest
    decimal that [float] rounds back to the same float.  Both give
    [float(str(t)) == t].  Exponents, a missing integer or fractional
    part, [inf] and [nan] are outside this instance. *)
#[export] Instance decimal_text : FloatText := {
  float_str := Decimal_text.str;
  float_ := Decimal_text.parse
}.

(** ** Class constants *)

Definition CAPTURE_INTERVAL : Q := 5%Q.
Definition DEFAULT_PLAYBACK_SPEED : Z := 1.
Definition DEFAULT_PROJECT : string := "default".
Definition PLAYBACK_SPEEDS : list Z := [16; 32; 64; 128; 256].
Definition img_file_prefix : string := "image_".

(** [ord] of the keys that [handle_key_press] knows *)
Definition ord_a : Z := 97.
Definition ord_b : Z := 98.
Definition ord_f : Z := 102.
Definition ord_p : Z := 112.
Definition ord_q : Z := 113.
Definition ord_s : Z := 115.

(** ** TimestampCodec *)

Definition map_time_255 (elapsed_time : Z) : list Z :=
  let hours := elapsed_time mod 86400 / 3600 in
  let minutes := elapsed_time mod 3600 / 60 in
  let seconds := elapsed_time mod 60 in
  [hours * 10 + 4; minutes * 4 + 2; seconds * 4 + 2].

Definition map_255_time (stats : list Z) : result (list Z) :=
  s0 <- Py.index stats 0 ;;
  s1 <- Py.index stats 1 ;;
  s2 <- Py.index stats 2 ;;
  Ok [s0 / 10; s1 / 4; s2 / 4].

(** ** The object state

    The attributes of [TimeLapseCamera] that the methods below read or
    write.  [cap] is [true] once [initialize_camera] has stored a capture
    object ([None] before); [key] is [None] until the first [waitKey]. *)

Record TimeLapseCamera : Type := mkCamera {
  cap : bool;
  active_project : string;
  selected_project : string;
  selected_project_index : Z;
  img_capture_index : Z;
  img_max_index : Z;
  img_shown_index : Z;
  key : option Z;
  playback_speed : Z;
  playback_speed_index : Z;
  projects : list string;
  projects_dict : list (string * Z);
  program_start_time : Q;
  last_picture_time : Q
}.

Definition set_active_project (v : string) (self : TimeLapseCamera) :=
  mkCamera (cap self) v (selected_project self)
    (selected_project_index self) (img_capture_index self)
    (img_max_index self) (img_shown_index self) (key self)
    (playback_speed self) (playback_speed_index self) (projects self)
    (projects_dict self) (program_start_time self) (last_picture_time self).

Definition set_selected_project (v : string) (self : TimeLapseCamera) :=
  mkCamera (cap self) (active_project self) v
    (selected_project_index self) (img_capture_index self)
    (img_max_index self) (img_shown_index self) (key self)
    (playback_speed self) (playback_speed_index self) (projects self)
    (projects_dict self) (program_start_time self) (last_picture_time self).

Definition set_selected_project_index (v : Z) (self : TimeLapseCamera) :=
  mkCamera (cap self) (active_project self) (selected_project self)
    v (img_capture_index self)
    (img_max_index self) (img_shown_index self) (key self)
    (playback_speed self) (playback_speed_index self) (projects self)
    (projects_dict self) (program_start_time self) (last_picture_time self).

Definition set_img_capture_index (v : Z) (self : TimeLapseCamera) :=
  mkCamera (cap self) (active_project self) (selected_project self)
    (selected_project_index self) v
    (img_max_index self) (img_shown_index self) (key self)
    (playback_speed self) (playback_speed_index self) (projects self)
    (projects_dict self) (program_start_time self) (last_picture_time self).

Definition set_img_max_index (v : Z) (self : TimeLapseCamera) :=
  mkCamera (cap self) (active_project self) (selected_project self)
    (selected_project_index self) (img_capture_index self)
    v (img_shown_index self) (key self)
    (playback_speed self) (playback_speed_index self) (projects self)
    (projects_dict self) (program_start_time self) (last_picture_time self).

Definition set_img_shown_index (v : Z) (self : TimeLapseCamera) :=
  mkCamera (cap self) (active_project self) (selected_project self)
    (selected_project_index self) (img_capture_index self)
    (img_max_index self) v (key self)
    (playback_speed self) (playback_speed_index self) (projects self)
    (projects_dict self) (program_start_time self) (last_picture_time self).

Definition set_key (v : option Z) (self : TimeLapseCamera) :=
  mkCamera (cap self) (active_project self) (selected_project self)
    (selected_project_index self) (img_capture_index self)
    (img_max_index self) (img_shown_index self) v
    (playback_speed self) (playback_speed_index self) (projects self)
    (projects_dict self) (program_start_time self) (last_picture_time self).

Definition set_playback_speed (v : Z) (self : TimeLapseCamera) :=
  mkCamera (cap self) (active_project self) (selected_project self)
    (selected_project_index self) (img_capture_index self)
    (img_max_index self) (img_shown_index self) (key self)
    v (playback_speed_index self) (projects self)
    (projects_dict self) (program_start_time self) (last_picture_time self).

Definition set_playback_speed_index (v : Z) (self : TimeLapseCamera) :=
  mkCamera (cap self) (active_project self) (selected_project self)
    (selected_project_index self) (img_capture_index self)
    (img_max_index self) (img_shown_index self) (key self)
    (playback_speed self) v (projects self)
    (projects_dict self) (program_start_time self) (last_picture_time self).

Definition set_projects (v : list string) (self : TimeLapseCamera) :=
  mkCamera (cap self) (active_project self) (selected_project self)
    (selected_project_index self) (img_capture_index self)
    (img_max_index self) (img_shown_index self) (key self)
    (playback_speed self) (playback_speed_index self) v
    (projects_dict self) (program_start_time self) (last_picture_time self).

Definition set_projects_dict (v : list (string * Z)) (self : TimeLapseCamera) :=
  mkCamera (cap self) (active_project self) (selected_project self)
    (selected_project_index self) (img_capture_index self)
    (img_max_index self) (img_shown_index self) (key self)
    (playback_speed self) (playback_speed_index self) (projects self)
    v (program_start_time self) (last_picture_time self).

Definition set_program_start_time (v : Q) (self : TimeLapseCamera) :=
  mkCamera (cap self) (active_project self) (selected_project self)
    (selected_project_index self) (img_capture_index self)
    (img_max_index self) (img_shown_index self) (key self)
    (playback_speed self) (playback_speed_index self) (projects self)
    (projects_dict self) v (last_picture_time self).

Definition set_last_picture_time (v : Q) (self : TimeLapseCamera) :=
  mkCamera (cap self) (active_project self) (selected_project self)
    (selected_project_index self) (img_capture_index self)
    (img_max_index self) (img_shown_index self) (key self)
    (playback_speed self) (playback_speed_index self) (projects self)
    (projects_dict self) (program_start_time self) v.

Definition set_cap (v : bool) (self : TimeLapseCamera) :=
  mkCamera v (active_project self) (selected_project self)
    (selected_project_index self) (img_capture_index self)
    (img_max_index self) (img_shown_index self) (key self)
    (playback_speed self) (playback_speed_index self) (projects self)
    (projects_dict self) (program_start_time self) (last_picture_time self).

(** [__init__], with [now] the value of its [time.time()] *)
Definition init (now : Q) : TimeLapseCamera := {|
  cap := false;
  active_project := "";
  selected_project := "";
  selected_project_index := 0;
  img_capture_index := 0;
  img_max_index := 0;
  img_shown_index := 1;
  key := None;
  playback_speed := DEFAULT_PLAYBACK_SPEED;
  playback_speed_index := 0;
  projects := [];
  projects_dict := [];
  program_start_time := now;
  last_picture_time := (now - CAPTURE_INTERVAL)%Q
|}.

(** ** The files

    A frame is the picture the camera took and the colour of the patch at
    [PIXEL_LOCATION].  A project directory lists regular files and
    sub-directories; [projects/] lists project directories and plain files.
    Project names are single path components, as [os.listdir] returns
    them. *)

Record frame : Type := mkFrame {
  picture : nat;
  patch : list Z
}.

Inductive project_entry : Type :=
| PFile (data : frame)
| PSubdir.

Inductive root_entry : Type :=
| RFile
| RDir (entries : list (string * project_entry)).

Record world : Type := mkWorld {
  log_txt : option string;                            (* LOG_PATH *)
  projects_folder : option (list (string * root_entry))  (* PROJECTS_FOLDER *)
}.

Definition set_log_txt (v : option string) (w : world) : world :=
  mkWorld v (projects_folder w).

Definition set_projects_folder (v : option (list (string * root_entry)))
  (w : world) : world :=
  mkWorld (log_txt w) v.

Fixpoint lookup {A : Type} (k : string) (l : list (string * A)) : option A :=
  match l with
  | [] => None
  | (k', v) :: l' => if String.eqb k' k then Some v else lookup k l'
  end.

(** Replace the value at [k], or add the pair at the end. *)
Fixpoint update {A : Type} (k : string) (v : A) (l : list (string * A))
  : list (string * A) :=
  match l with
  | [] => [(k, v)]
  | (k', v') :: l' =>
      if String.eqb k' k then (k, v) :: l' else (k', v') :: update k v l'
  end.

(** The entries of the directory [projects/<project>], if it is one *)
Definition project_dir (w : world) (project : string)
  : option (list (string * project_entry)) :=
  match projects_folder w with
  | None => None
  | Some root =>
      match lookup project root with
      | Some (RDir entries) => Some entries
      | _ => None
      end
  end.

Definition is_file (e : string * project_entry) : bool :=
  match snd e with
  | PFile _ => true
  | PSubdir => false
  end.

Definition is_dir (e : string * root_entry) : bool :=
  match snd e with
  | RDir _ => true
  | RFile => false
  end.

Section Methods.

Context {float_text : FloatText}.

(** ** SessionStore *)

Definition read_log_file (self : TimeLapseCamera) (w : world)
  : result TimeLapseCamera :=
  match log_txt w with
  | None => Ok self                          (* except FileNotFoundError *)
  | Some content =>
      let log_file := Py.universal_newlines content in
      let (line1, log_file) := Py.readline log_file in
      let self := set_active_project (Py.strip line1) self in
      let (line2, log_file) := Py.readline log_file in
      n <- of_option ValueError (Py.int_ (Py.strip line2)) ;;
      let self := set_img_capture_index n self in
      let (line3, _) := Py.readline log_file in
      t <- of_option ValueError (float_ (Py.strip line3)) ;;
      Ok (set_program_start_time t self)
  end.

(** The text of the f-string in [write_log_file] *)
Definition log_record (self : TimeLapseCamera) : string :=
  active_project self ++ Py.nl ++ Py.str_int (img_capture_index self)
  ++ Py.nl ++ float_str (program_start_time self).

Definition write_log_file (self : TimeLapseCamera) (w : world) : world :=
  set_log_txt (Some (log_record self)) w.

(** ** ProjectCatalog *)

(** [ensure_directory_exists(PROJECTS_FOLDER)] *)
Definition ensure_projects_folder (w : world) : world :=
  match projects_folder w with
  | None => set_projects_folder (Some []) w
  | Some _ => w
  end.

(** [ensure_directory_exists(os.path.join(PROJECTS_FOLDER, project))] *)
Definition ensure_project_directory (project : string) (w : world)
  : result world :=
  match projects_folder w with
  | None => Ok (set_projects_folder (Some [(project, RDir [])]) w)
  | Some root =>
      match lookup project root with
      | Some (RDir _) => Ok w
      | Some RFile => Raise FileExistsError
      | None => Ok (set_projects_folder (Some (root ++ [(project, RDir [])])%list) w)
      end
  end.

(** [os.listdir] of a project directory *)
Definition listdir_project (w : world) (project : string)
  : result (list (string * project_entry)) :=
  match projects_folder w with
  | None => Raise FileNotFoundError
  | Some root =>
      match lookup project root with
      | Some (RDir entries) => Ok entries
      | Some RFile => Raise NotADirectoryError
      | None => Raise FileNotFoundError
      end
  end.

(** The loop of [get_projects] that fills [projects_dict] *)
Fixpoint count_files (w : world) (projects_list : list string)
  (dict : list (string * Z)) : result (list (string * Z)) :=
  match projects_list with
  | [] => Ok dict
  | project :: rest =>
      entries <- listdir_project w project ;;
      let number_of_files := Z.of_nat (List.length (filter is_file entries)) in
      count_files w rest (update project number_of_files dict)
  end.

Definition get_projects (self : TimeLapseCamera) (w : world)
  : result (TimeLapseCamera * world) :=
  root <- of_option FileNotFoundError (projects_folder w) ;;
  let projects_list := map fst (filter is_dir root) in
  '(projects_list, w) <-
     match projects_list with
     | [] =>
         w' <- ensure_project_directory DEFAULT_PROJECT w ;;
         Ok ([DEFAULT_PROJECT], w')
     | _ => Ok (projects_list, w)
     end ;;
  dict <- count_files w projects_list (projects_dict self) ;;
  let self := set_projects_dict dict self in
  Ok (set_projects projects_list self, w).

Definition is_directory_empty (w : world) (project : string) : result bool :=
  entries <- listdir_project w project ;;
  Ok (match entries with [] => true | _ => false end).

(** The [for] loop of [select_project]: the project at which it returns *)
Fixpoint first_empty (w : world) (projects_list : list string)
  : result (option string) :=
  match projects_list with
  | [] => Ok None
  | project :: rest =>
      empty <- is_directory_empty w project ;;
      if empty then Ok (Some project) else first_empty w rest
  end.

Definition select_project (now : Q) (self : TimeLapseCamera) (w : world)
  : result (TimeLapseCamera * world) :=
  found <- first_empty w (projects self) ;;
  match found with
  | Some project =>
      let self := set_active_project project self in
      let self := set_program_start_time now self in
      let self := set_img_capture_index 0 self in
      Ok (self, write_log_file self w)
  | None =>
      if Py.in_ (active_project self) (projects self) then Ok (self, w)
      else
        let self := set_active_project DEFAULT_PROJECT self in
        Ok (self, write_log_file self w)
  end.

Definition setup_project (now : Q) (self : TimeLapseCamera) (w : world)
  : result (TimeLapseCamera * world) :=
  self <- read_log_file self w ;;
  let w := ensure_projects_folder w in
  '(self, w) <- get_projects self w ;;
  '(self, w) <- select_project now self w ;;
  let self := set_selected_project (active_project self) self in
  i <- Py.list_index (selected_project self) (projects self) ;;
  Ok (set_selected_project_index i self, w).

(** ** Capture *)

(** The start time is a number here.  A start time [nan] or [inf], which
    [float] can read from [log.txt], makes [int] raise in the source: the
    theorems on captures are stated for a capture that returns. *)
Definition add_timestamp_to_image (now : Q) (fr : frame)
  (self : TimeLapseCamera) : result frame :=
  let elapsed_time := Py.int_of_float (now - program_start_time self)%Q in
  let stats := map_time_255 elapsed_time in
  s0 <- Py.index stats 0 ;;
  s1 <- Py.index stats 1 ;;
  s2 <- Py.index stats 2 ;;
  Ok (mkFrame (picture fr) [s0; s1; s2]).

(** [cv2.imwrite]: writes or overwrites the file; writes nothing (and does
    not raise) when the directory is missing or the name is a directory. *)
Definition imwrite (project filename : string) (data : frame) (w : world)
  : world :=
  match projects_folder w with
  | None => w
  | Some root =>
      match lookup project root with
      | Some (RDir entries) =>
          match lookup filename entries with
          | Some PSubdir => w
          | _ =>
              let entries' := update filename (PFile data) entries in
              set_projects_folder (Some (update project (RDir entries') root)) w
          end
      | _ => w
      end
  end.

(** The file name of frame [index] *)
Definition frame_name (index : Z) : string :=
  img_file_prefix ++ Py.str_int index ++ ".jpg".

Definition save_image_with_timestamp (now : Q) (fr : frame)
  (project filename : string) (self : TimeLapseCamera) (w : world)
  : result world :=
  frame_with_timestamp <- add_timestamp_to_image now fr self ;;
  Ok (imwrite project filename frame_with_timestamp w).

(** [read] is what [self.cap.read()] returns ([None] when [ret] is false),
    [t_stamp] and [t_saved] the two later readings of the clock. *)
Definition capture_image (read : option frame) (t_stamp t_saved : Q)
  (self : TimeLapseCamera) (w : world) : result (TimeLapseCamera * world) :=
  if negb (cap self) then Ok (self, w)
  else
    match read with
    | None => Ok (self, w)
    | Some fr =>
        w <- save_image_with_timestamp t_stamp fr (active_project self)
               (frame_name (img_capture_index self)) self w ;;
        let self := set_last_picture_time t_saved self in
        let self :=
          if String.eqb (selected_project self) (active_project self)
          then set_img_max_index (img_capture_index self) self
          else self in
        let self := set_img_capture_index (img_capture_index self + 1) self in
        Ok (self, write_log_file self w)
    end.

(** ** PlaybackEngine *)

(** [update_display] draws on the window and changes no attribute; it is
    left out.  [pressed] is what [cv2.waitKey] returns. *)
Definition play_movie (pressed : Z) (self : TimeLapseCamera)
  : result TimeLapseCamera :=
  shown <-
    (if negb (img_max_index self =? 0) then
       Py.mod_ (img_shown_index self
                + (if playback_speed self >? 0 then 1 else -1))
               (img_max_index self)
     else Ok 0) ;;
  let self := set_img_shown_index shown self in
  _ <- Py.truediv_ok (Z.abs (playback_speed self)) ;;
  Ok (set_key (Some pressed) self).

(** The branch of keys [s] ([step = 1]) and [a] ([step = -1]) *)
Definition select_step (step : Z) (self : TimeLapseCamera)
  : result TimeLapseCamera :=
  i <- Py.mod_ (selected_project_index self + step)
         (Z.of_nat (List.length (projects self))) ;;
  let self := set_selected_project_index i self in
  project <- Py.index (projects self) (selected_project_index self) ;;
  let self := set_selected_project project self in
  let self := set_img_shown_index 1 self in
  n <- of_option KeyError
         (lookup (selected_project self) (projects_dict self)) ;;
  Ok (set_img_max_index n self).

Definition handle_key_press (self : TimeLapseCamera)
  : result (bool * TimeLapseCamera) :=
  match key self with
  | None => Ok (true, self)
  | Some k =>
      if (k =? ord_f) || (k =? ord_b) then
        speed <- Py.index PLAYBACK_SPEEDS (playback_speed_index self) ;;
        let self :=
          set_playback_speed (speed * (if k =? ord_b then -1 else 1)) self in
        i <- Py.mod_ (playback_speed_index self + 1)
               (Z.of_nat (List.length PLAYBACK_SPEEDS)) ;;
        Ok (true, set_playback_speed_index i self)
      else if k =? ord_p then
        if playback_speed self >? 0
        then Ok (true, set_playback_speed DEFAULT_PLAYBACK_SPEED self)
        else Ok (true, set_playback_speed (-1 * DEFAULT_PLAYBACK_SPEED) self)
      else if k =? ord_s then
        self <- select_step 1 self ;; Ok (true, self)
      else if k =? ord_a then
        self <- select_step (-1) self ;; Ok (true, self)
      else if k =? ord_q then Ok (false, self)
      else Ok (true, self)
  end.

(** ** Main loop *)

(** What one pass of the loop reads from outside: the clock at the top of
    the pass, the camera and the clock inside [capture_image], and the key
    returned by [waitKey]. *)
Record tick_input : Type := mkTick {
  t_loop : Q;
  camera : option frame;
  t_stamp : Q;
  t_saved : Q;
  pressed : Z
}.

(** [time.time() - self.last_picture_time >= self.CAPTURE_INTERVAL] *)
Definition capture_due (now : Q) (self : TimeLapseCamera) : bool :=
  Qle_bool CAPTURE_INTERVAL (now - last_picture_time self)%Q.

(** One pass of [main_loop]; [None] when the loop breaks. *)
Definition tick (inp : tick_input) (self : TimeLapseCamera) (w : world)
  : result (option (TimeLapseCamera * world)) :=
  '(continue, self) <- handle_key_press self ;;
  if negb continue then Ok None
  else
    '(self, w) <-
       (if capture_due (t_loop inp) self
        then capture_image (camera inp) (t_stamp inp) (t_saved inp) self w
        else Ok (self, w)) ;;
    self <- play_movie (pressed inp) self ;;
    Ok (Some (self, w)).

(** [main_loop] over the inputs of its first passes: the state when the
    loop breaks, or after the last of these passes. *)
Fixpoint main_loop (inputs : list tick_input) (self : TimeLapseCamera)
  (w : world) : result (TimeLapseCamera * world) :=
  match inputs with
  | [] => Ok (self, w)
  | inp :: rest =>
      r <- tick inp self w ;;
      match r with
      | None => Ok (self, w)
      | Some (self', w') => main_loop rest self' w'
      end
  end.

End Methods.

(** ** Vocabulary of the properties *)

(** The bounds of the shown index *)
Definition shown_in_bounds (self : TimeLapseCamera) : Prop :=
  (0 < img_max_index self ->
   0 <= img_shown_index self < img_max_index self)
  /\ (img_max_index self = 0 -> img_shown_index self = 0).

(** The sign that key [k] gives the speed *)
Definition direction (k : Z) : Z := if k =? ord_b then -1 else 1.

(** The number of regular files in a project directory *)
Definition frame_count (w : world) (project : string) : option Z :=
  option_map (fun entries => Z.of_nat (List.length (filter is_file entries)))
    (project_dir w project).

(** The file stored under [name] in a project directory *)
Definition stored_frame (w : world) (project name : string)
  : option project_entry :=
  match project_dir w project with
  | Some entries => lookup name entries
  | None => None
  end.

(** A directory that holds [n] entries, each a regular file named as a
    frame of index below [n]: the frames [image_0 .. image_(n-1)]. *)
Definition sequential_frames (entries : list (string * project_entry))
  (n : Z) : Prop :=
  Z.of_nat (List.length entries) = n
  /\ forall name e,
       In (name, e) entries ->
       (exists data, e = PFile data)
       /\ exists i, 0 <= i < n /\ name = frame_name i.

(** The frame that [add_timestamp_to_image] makes of [fr] at time [now] *)
Definition stamped (now : Q) (fr : frame) (self : TimeLapseCamera) : frame :=
  mkFrame (picture fr)
    (map_time_255 (Py.int_of_float (now - program_start_time self)%Q)).

(** The state after a capture that succeeded *)
Definition captured (t_saved : Q) (self : TimeLapseCamera) : TimeLapseCamera :=
  let self1 := set_last_picture_time t_saved self in
  let self2 :=
    if String.eqb (selected_project self1) (active_project self1)
    then set_img_max_index (img_capture_index self1) self1
    else self1 in
  set_img_capture_index (img_capture_index self2 + 1) self2.

(** The session attributes, which only a capture or the start-up change *)
Definition same_session (self self' : TimeLapseCamera) : Prop :=
  cap self' = cap self
  /\ active_project self' = active_project self
  /\ img_capture_index self' = img_capture_index self
  /\ program_start_time self' = program_start_time self
  /\ last_picture_time self' = last_picture_time self.

(** A pass of the loop in which the camera gives no frame and the key
    that arrives selects no project *)
Definition quiet (inp : tick_input) : Prop :=
  camera inp = None /\ pressed inp <> ord_s /\ pressed inp <> ord_a.

(** The playback attributes while no project has been selected by key and
    [img_max_index] is still 0 *)
Definition unselected (self : TimeLapseCamera) : Prop :=
  img_max_index self = 0
  /\ playback_speed self <> 0
  /\ 0 <= playback_speed_index self < 5
  /\ key self <> Some ord_s
  /\ key self <> Some ord_a.

(** Is [projects/<project>] a directory without entries? *)
Definition dir_empty (w : world) (project : string) : bool :=
  match project_dir w project with
  | Some [] => true
  | _ => false
  end.

(** The session reset: a new active project, captured from index 0, with
    the session starting now *)
Definition reset_session (project : string) (now : Q)
  (self : TimeLapseCamera) : TimeLapseCamera :=
  set_img_capture_index 0
    (set_program_start_time now (set_active_project project self)).

(** Do all characters of [s] satisfy [P]? *)
Fixpoint all_chars (P : ascii -> bool) (s : string) : bool :=
  match s with
  | "" => true
  | String c r => P c && all_chars P r
  end.

(** The characters of [str(n)] *)
Definition digit_or_minus (c : ascii) : bool :=
  match Py.digit_of c with
  | Some _ => true
  | None => Ascii.eqb c "-"
  end.

(** ** Concrete inputs

    States and file trees at which the properties below are evaluated. *)

Module Example.

(** Two projects in the catalog, [A] with ten images and [B] with one;
    the key [s] has just been pressed. *)
Definition browsing : TimeLapseCamera :=
  set_key (Some ord_s)
    (set_projects ["A"; "B"]
       (set_projects_dict [("A", 10); ("B", 1)] (init 0))).

(** The project [A] with its first two frames, the record of that
    session, and the state of a camera recording into [A]. *)
Definition two_frames : list (string * project_entry) :=
  [("image_0.jpg", PFile (mkFrame 0 [4; 2; 2]));
   ("image_1.jpg", PFile (mkFrame 1 [4; 2; 22]))].

Definition two_frames_world : world :=
  mkWorld (Some ("A" ++ Py.nl ++ "2" ++ Py.nl ++ "100.5"))
    (Some [("A", RDir two_frames)]).

Definition recording : TimeLapseCamera :=
  set_cap true
    (set_selected_project "A"
       (set_active_project "A"
          (set_img_capture_index 2
             (set_projects ["A"]
                (set_projects_dict [("A", 2)] (init 100)))))).

(** The state in which start-up leaves a camera built at time 150 that
    finds [two_frames_world]. *)
Definition resumed : TimeLapseCamera :=
  set_program_start_time (201 # 2)
    (set_selected_project "A"
       (set_active_project "A"
          (set_img_capture_index 2
             (set_projects ["A"]
                (set_projects_dict [("A", 2)] (set_cap true (init 150))))))).

(** Two passes of the loop without a frame: the key [f], then no key. *)
Definition two_quiet_ticks : list tick_input :=
  [mkTick 201 None 201 201 ord_f; mkTick 202 None 202 202 (-1)].

(** A catalog whose only project is not empty, and a camera whose record
    names a project that is gone. *)
Definition one_project_world : world :=
  mkWorld (Some ("gone" ++ Py.nl ++ "7" ++ Py.nl ++ "100.0"))
    (Some [("A", RDir two_frames)]).

Definition orphaned : TimeLapseCamera :=
  set_active_project "gone"
    (set_img_capture_index 7
       (set_projects ["A"]
          (set_projects_dict [("A", 2)] (set_cap true (init 100))))).

(** The catalog of the specification's example: [A] holds images, [B] is
    empty. *)
Definition empty_project_world : world :=
  mkWorld (Some ("A" ++ Py.nl ++ "2" ++ Py.nl ++ "100.5"))
    (Some [("A", RDir two_frames); ("B", RDir [])]).

Definition with_empty_project : TimeLapseCamera :=
  set_projects ["A"; "B"]
    (set_projects_dict [("A", 2); ("B", 0)] recording).

End Example.

(** ** The display and the wait of [play_movie] *)

(** [cv2.imread] of [projects/<project>/<filename>]: [None] when there is
    no such regular file.  Every regular file of the model is a frame that
    decodes; a file that [cv2.imread] cannot decode is not modelled. *)
Definition imread (w : world) (project filename : string) : option frame :=
  match stored_frame w project filename with
  | Some (PFile data) => Some data
  | _ => None
  end.

(** What [update_display] hands to [cv2.putText]: the decoded time (printed
    with [str]), the project name, and the speed text. *)
Record overlay : Type := mkOverlay {
  overlay_time : list Z;
  overlay_project : string;
  overlay_speed : string
}.

(** The outcomes of [update_display].  [UnboundIcon] is the
    [UnboundLocalError] that the use of [icon] would raise had none of the
    three tests on the speed succeeded. *)
Inductive display_result : Type :=
| NotShown
| Shown (o : overlay)
| DisplayRaise (e : exn)
| UnboundIcon.

(** The [if]/[elif]/[elif] chain that binds [icon] *)
Definition speed_icon (speed : Z) : option string :=
  if speed =? 1 then Some "> "
  else if speed >? 1 then Some ">>"
  else if speed <? 1 then Some "<<"
  else None.

(** The pixel read at [PIXEL_LOCATION] lies left of the black rectangle
    drawn before, so it is the patch of the frame. *)
Definition update_display (index : Z) (self : TimeLapseCamera) (w : world)
  : display_result :=
  match imread w (selected_project self) (frame_name index) with
  | None => NotShown
  | Some fr =>
      match map_255_time (patch fr) with
      | Raise e => DisplayRaise e
      | Ok time =>
          match speed_icon (playback_speed self) with
          | None => UnboundIcon
          | Some icon =>
              Shown (mkOverlay time (selected_project self)
                       (icon ++ Py.str_int (Z.abs (playback_speed self))
                        ++ "x"))
          end
      end
  end.

(** The argument of [cv2.waitKey] in [play_movie], in milliseconds:
    [int(1000 * self.CAPTURE_INTERVAL / abs(self.playback_speed))].  For
    the speeds of the table the float quotient truncates to the integer
    quotient. *)
Definition waitkey_delay (self : TimeLapseCamera) : result Z :=
  _ <- Py.truediv_ok (Z.abs (playback_speed self)) ;;
  Ok (1000 * 5 / Z.abs (playback_speed self)).

(** ** Runs *)

(** The keys [keys] arrive one after the other, each handled by
    [handle_key_press]. *)
Fixpoint presses (keys : list Z) (self : TimeLapseCamera)
  : result TimeLapseCamera :=
  match keys with
  | [] => Ok self
  | k :: rest =>
      '(_, self') <- handle_key_press (set_key (Some k) self) ;;
      presses rest self'
  end.

(** One call of [capture_image] per shot, each with a frame from the
    camera and its two readings of the clock. *)
Fixpoint captures {float_text : FloatText} (shots : list (frame * Q * Q))
  (self : TimeLapseCamera) (w : world) : result (TimeLapseCamera * world) :=
  match shots with
  | [] => Ok (self, w)
  | (fr, t_stamp, t_saved) :: rest =>
      '(self', w') <- capture_image (Some fr) t_stamp t_saved self w ;;
      captures rest self' w'
  end.

(** [n] passes of [play_movie] *)
Fixpoint plays (n : nat) (self : TimeLapseCamera) : result TimeLapseCamera :=
  match n with
  | O => Ok self
  | S n' => self' <- play_movie (-1) self ;; plays n' self'
  end.

(** ** Invariants of the loop *)

(** The speed is 1 or a table entry, in either direction, and the speed
    index is an index of the table. *)
Definition speed_ok (self : TimeLapseCamera) : Prop :=
  In (Z.abs (playback_speed self)) (DEFAULT_PLAYBACK_SPEED :: PLAYBACK_SPEEDS)
  /\ 0 <= playback_speed_index self < Z.of_nat (List.length PLAYBACK_SPEEDS).

(** The catalog is not empty and every project in it has its count. *)
Definition catalog_ok (self : TimeLapseCamera) : Prop :=
  projects self <> []
  /\ forall p, In p (projects self) -> lookup p (projects_dict self) <> None.

Definition loop_ready (self : TimeLapseCamera) : Prop :=
  speed_ok self /\ catalog_ok self.

(** The hours, minutes and seconds of the day of an elapsed time *)
Definition time_of_day (elapsed : Z) : list Z :=
  [elapsed mod 86400 / 3600; elapsed mod 3600 / 60; elapsed mod 60].

(** The catalog attributes, which only [get_projects] sets *)
Definition same_catalog (self self' : TimeLapseCamera) : Prop :=
  projects self' = projects self
  /\ projects_dict self' = projects_dict self.

(** The record in [log.txt] is the one [write_log_file] writes for the
    state. *)
Definition log_follows {float_text : FloatText} (self : TimeLapseCamera)
  (w : world) : Prop :=
  log_txt w = Some (log_record self).

(** No pass of the loop gets a frame from the camera. *)
Definition no_frames (inputs : list tick_input) : Prop :=
  Forall (fun inp => camera inp = None) inputs.

(** A number in lowest terms with a finite decimal expansion: its
    denominator divides a power of ten (tested at the exponent given by the
    bit length of the denominator, which is large enough).  Every float is
    one, its denominator being a power of two. *)
Definition finite_decimal (t : Q) : bool :=
  (Z.gcd (Qnum t) (Zpos (Qden t)) =? 1)
  && (10 ^ Z.of_nat (Pos.size_nat (Qden t)) mod Zpos (Qden t) =? 0).


(** ** More concrete inputs *)

Module Sample.

(** A [projects/] folder with a plain file and the project [A], which
    holds a sub-directory beside its two frames. *)
Definition mixed_world : world :=
  mkWorld None
    (Some [("notes.txt", RFile);
           ("A", RDir (("raw", PSubdir) :: Example.two_frames))]).

(** Four passes of the loop: a frame is captured and [s] arrives; [s] is
    handled and [f] arrives; [f] is handled, a second frame is captured and
    [a] arrives; [a] is handled. *)
Definition busy_ticks : list tick_input :=
  [mkTick 201 (Some (mkFrame 2 [0; 0; 0])) 201 202 ord_s;
   mkTick 203 None 203 203 ord_f;
   mkTick 207 (Some (mkFrame 3 [0; 0; 0])) 207 208 ord_a;
   mkTick 209 None 209 209 (-1)].

(** Passes without a frame in which every key of the keyboard arrives. *)
Definition keys_only : list tick_input :=
  [mkTick 201 None 201 201 ord_s; mkTick 202 None 202 202 ord_f;
   mkTick 203 None 203 203 ord_p; mkTick 204 None 204 204 ord_a;
   mkTick 205 None 205 205 ord_b; mkTick 206 None 206 206 ord_q;
   mkTick 207 None 207 207 (-1)].



(** A pass of the loop at time 108 in which the camera has a frame *)
Definition early_tick : tick_input :=
  mkTick 108 (Some (mkFrame 3 [0; 0; 0])) 108 108 (-1).

End Sample.

(** * Properties *)

(** ** TimestampCodec *)

Lemma map_255_time_3 (a b c : Z) :
  map_255_time [a; b; c] = Ok [a / 10; b / 4; c / 4].
Proof. reflexivity. Qed.

Lemma decode_channel (m o x : Z) : 0 <= o < m -> (x * m + o) / m = x.
Proof.
  intros Hm. rewrite Z.div_add_l by lia. rewrite Z.div_small by lia. lia.
Qed.

(** C1. Decoding an encoded elapsed time below one day gives its hours,
    minutes and seconds exactly. *)
Theorem codec_exact (elapsed : Z) :
  0 <= elapsed < 86400 ->
  map_255_time (map_time_255 elapsed)
  = Ok [elapsed / 3600; elapsed mod 3600 / 60; elapsed mod 60].
Proof.
  intros Hrange. unfold map_time_255. rewrite map_255_time_3.
  rewrite !decode_channel by lia.
  rewrite (Z.mod_small elapsed 86400) by lia. reflexivity.
Qed.

(** The example of the specification: 3723 s is encoded as (14, 10, 14) and
    decoded as (1, 2, 3). *)
Lemma codec_exact_3723 :
  0 <= 3723 < 86400 /\ map_time_255 3723 = [14; 10; 14]
  /\ map_255_time (map_time_255 3723) = Ok [1; 2; 3].
Proof.
  assert (H : 0 <= 3723 < 86400) by lia.
  split; [exact H | split; [reflexivity | exact (codec_exact 3723 H)]].
Defined.

(** C8. Every channel value that [map_time_255] produces for a
    non-negative elapsed time lies in [2, 238]; it is neither 0 nor 255. *)
Theorem encoded_range (elapsed v : Z) :
  0 <= elapsed ->
  In v (map_time_255 elapsed) ->
  2 <= v <= 238 /\ v <> 0 /\ v <> 255.
Proof.
  intros _ Hin. unfold map_time_255 in Hin.
  assert (Hh : 0 <= elapsed mod 86400 / 3600 <= 23).
  { pose proof (Z.mod_pos_bound elapsed 86400 ltac:(lia)) as Hb.
    split; [apply Z.div_pos; lia | ].
    apply Z.lt_succ_r, Z.div_lt_upper_bound; lia. }
  assert (Hm : 0 <= elapsed mod 3600 / 60 <= 59).
  { pose proof (Z.mod_pos_bound elapsed 3600 ltac:(lia)) as Hb.
    split; [apply Z.div_pos; lia | ].
    apply Z.lt_succ_r, Z.div_lt_upper_bound; lia. }
  pose proof (Z.mod_pos_bound elapsed 60 ltac:(lia)) as Hs.
  destruct Hin as [<- | [<- | [<- | []]]]; lia.
Qed.

Lemma encoded_range_witness :
  0 <= 86399 /\ In 238 (map_time_255 86399)
  /\ (2 <= 238 <= 238 /\ 238 <> 0 /\ 238 <> 255).
Proof.
  assert (H : 0 <= 86399) by lia.
  assert (Hin : In 238 (map_time_255 86399)) by (right; left; reflexivity).
  split; [exact H | split; [exact Hin | exact (encoded_range 86399 238 H Hin)]].
Defined.

(** ** PlaybackEngine *)

Lemma play_movie_ok (pressed : Z) (self : TimeLapseCamera) :
  playback_speed self <> 0 ->
  exists shown,
    play_movie pressed self
    = Ok (set_key (Some pressed) (set_img_shown_index shown self))
    /\ (img_max_index self = 0 -> shown = 0)
    /\ (img_max_index self <> 0 ->
        shown = (img_shown_index self
                 + (if playback_speed self >? 0 then 1 else -1))
                mod img_max_index self).
Proof.
  intros Hspeed. unfold play_movie.
  assert (Habs : (Z.abs (playback_speed self) =? 0) = false)
    by (apply Z.eqb_neq; lia).
  destruct (img_max_index self =? 0) eqn:Hmax.
  - exists 0. cbn [negb bind]. unfold Py.truediv_ok.
    cbn [playback_speed set_img_shown_index]. rewrite Habs. cbn [bind].
    apply Z.eqb_eq in Hmax.
    split; [reflexivity | split; [reflexivity | intros; lia]].
  - eexists. unfold Py.mod_. rewrite Hmax. cbn [negb bind].
    unfold Py.truediv_ok. cbn [playback_speed set_img_shown_index].
    rewrite Habs. cbn [bind].
    apply Z.eqb_neq in Hmax.
    split; [reflexivity | split; [intros; lia | reflexivity]].
Qed.

Lemma play_movie_inv (pressed : Z) (self self' : TimeLapseCamera) :
  play_movie pressed self = Ok self' ->
  img_max_index self' = img_max_index self
  /\ playback_speed self' = playback_speed self
  /\ key self' = Some pressed
  /\ shown_in_bounds self'.
Proof.
  intros Hrun.
  assert (Hspeed : playback_speed self <> 0).
  { intros H0. unfold play_movie in Hrun.
    destruct (if negb (img_max_index self =? 0)
              then Py.mod_ (img_shown_index self
                            + (if playback_speed self >? 0 then 1 else -1))
                     (img_max_index self)
              else Ok 0) as [shown | e]; cbn [bind] in Hrun; [ | discriminate].
    unfold Py.truediv_ok in Hrun.
    cbn [playback_speed set_img_shown_index] in Hrun.
    rewrite H0 in Hrun. discriminate. }
  destruct (play_movie_ok pressed self Hspeed) as (shown & Heq & H0 & Hn).
  rewrite Heq in Hrun. injection Hrun as <-. unfold shown_in_bounds.
  cbn [img_max_index playback_speed key img_shown_index set_key
       set_img_shown_index].
  split; [reflexivity | split; [reflexivity | split; [reflexivity | ]]].
  split; [ | exact H0].
  intros Hpos. rewrite Hn by lia. apply Z.mod_pos_bound. exact Hpos.
Qed.

Lemma index_speeds (i : Z) :
  0 <= i < 5 ->
  Py.index PLAYBACK_SPEEDS i = Ok (nth (Z.to_nat i) PLAYBACK_SPEEDS 0)
  /\ nth (Z.to_nat i) PLAYBACK_SPEEDS 0 <> 0.
Proof.
  intros Hi.
  assert (Hc : i = 0 \/ i = 1 \/ i = 2 \/ i = 3 \/ i = 4) by lia.
  destruct Hc as [-> | [-> | [-> | [-> | ->]]]];
    (split; [reflexivity | vm_compute; discriminate]).
Qed.

Lemma handle_key_press_speed (self : TimeLapseCamera) (k : Z) :
  key self = Some k ->
  k = ord_f \/ k = ord_b ->
  0 <= playback_speed_index self < 5 ->
  handle_key_press self
  = Ok (true,
        set_playback_speed_index ((playback_speed_index self + 1) mod 5)
          (set_playback_speed
             (nth (Z.to_nat (playback_speed_index self)) PLAYBACK_SPEEDS 0
              * direction k) self)).
Proof.
  intros Hkey Hk Hi. unfold handle_key_press. rewrite Hkey.
  assert (Hfb : (k =? ord_f) || (k =? ord_b) = true).
  { destruct Hk as [-> | ->]; reflexivity. }
  rewrite Hfb. destruct (index_speeds _ Hi) as [-> _]. cbn [bind].
  reflexivity.
Qed.

(** C6 (amended). On advance-forward and advance-backward the speed is
    the table entry at the speed index as it was before the event, times
    the sign of the direction; the speed index is rotated afterwards. *)
Theorem speed_event (self : TimeLapseCamera) (k : Z) :
  key self = Some k ->
  k = ord_f \/ k = ord_b ->
  0 <= playback_speed_index self < Z.of_nat (List.length PLAYBACK_SPEEDS) ->
  exists self',
    handle_key_press self = Ok (true, self')
    /\ Py.index PLAYBACK_SPEEDS (playback_speed_index self)
       = Ok (nth (Z.to_nat (playback_speed_index self)) PLAYBACK_SPEEDS 0)
    /\ playback_speed self'
       = nth (Z.to_nat (playback_speed_index self)) PLAYBACK_SPEEDS 0
         * direction k
    /\ playback_speed_index self'
       = (playback_speed_index self + 1)
         mod Z.of_nat (List.length PLAYBACK_SPEEDS)
    /\ self' = set_playback_speed_index (playback_speed_index self')
                 (set_playback_speed (playback_speed self') self).
Proof.
  change (Z.of_nat (List.length PLAYBACK_SPEEDS)) with 5.
  intros Hkey Hk Hi. eexists.
  split; [exact (handle_key_press_speed self k Hkey Hk Hi) | ].
  split; [exact (proj1 (index_speeds _ Hi)) | ].
  repeat split.
Qed.

Lemma speed_event_witness :
  exists self',
    handle_key_press
      (set_playback_speed_index 4 (set_key (Some ord_b) (init 0)))
    = Ok (true, self')
    /\ playback_speed self' = -256
    /\ playback_speed_index self' = 0.
Proof.
  assert (Hi : 0 <= playback_speed_index
                       (set_playback_speed_index 4
                          (set_key (Some ord_b) (init 0)))
               < Z.of_nat (List.length PLAYBACK_SPEEDS))
    by (cbn; lia).
  destruct (speed_event
              (set_playback_speed_index 4 (set_key (Some ord_b) (init 0)))
              ord_b eq_refl (or_intror eq_refl) Hi)
    as (self' & Hrun & _ & Hspeed & Hindex & _).
  exists self'. split; [exact Hrun | split; [exact Hspeed | exact Hindex]].
Defined.

(** C6 as stated fails: after the first advance-forward the speed index is
    1, where the table holds 32, and the speed is 16, the entry at the
    index before the rotation. *)
Lemma speed_event_not_rotated_index :
  match handle_key_press (set_key (Some ord_f) (init 0)) with
  | Ok (_, self') =>
      playback_speed_index self' = 1
      /\ Py.index PLAYBACK_SPEEDS (playback_speed_index self') = Ok 32
      /\ playback_speed self' = 16
      /\ playback_speed self' <> 32 * 1
  | Raise _ => False
  end.
Proof. cbn. repeat split; try reflexivity. lia. Qed.

Section PlaybackBounds.

Context {float_text : FloatText}.

Lemma speed_keys_keep_indices (k : Z) (self : TimeLapseCamera) :
  key self = Some k ->
  k = ord_f \/ k = ord_b \/ k = ord_p ->
  0 <= playback_speed_index self < 5 ->
  exists self',
    handle_key_press self = Ok (true, self')
    /\ img_shown_index self' = img_shown_index self
    /\ img_max_index self' = img_max_index self
    /\ playback_speed self' <> 0.
Proof.
  intros Hkey Hk Hi.
  destruct Hk as [Hk | [Hk | Hk]].
  1, 2: rewrite (handle_key_press_speed self k Hkey) by tauto;
    eexists; split; [reflexivity | ];
    cbn [img_shown_index img_max_index playback_speed
         set_playback_speed_index set_playback_speed];
    split; [reflexivity | split; [reflexivity | ]];
    destruct (index_speeds _ Hi) as [_ Hnz];
    unfold direction; destruct (k =? ord_b); lia.
  unfold handle_key_press. rewrite Hkey. subst k. cbn [Z.eqb ord_p ord_f ord_b orb].
  change (112 =? 102) with false. change (112 =? 98) with false.
  change (112 =? 112) with true. cbn [orb].
  destruct (playback_speed self >? 0); eexists; (split; [reflexivity | ]);
    cbn; repeat split; discriminate.
Qed.

(** C3 (amended). After every per-tick advance, and so at the end of
    every pass of the main loop, the shown index is within [0, maxIndex)
    when maxIndex is positive and is 0 when maxIndex is 0, where no modulo
    is taken; the advance-forward, advance-backward and toggle events leave
    both indices as they are. *)
Theorem playback_bounds :
  (forall pressed self,
      playback_speed self <> 0 ->
      exists self',
        play_movie pressed self = Ok self'
        /\ img_max_index self' = img_max_index self
        /\ shown_in_bounds self')
  /\ (forall k self,
        key self = Some k ->
        k = ord_f \/ k = ord_b \/ k = ord_p ->
        0 <= playback_speed_index self < 5 ->
        exists self',
          handle_key_press self = Ok (true, self')
          /\ img_shown_index self' = img_shown_index self
          /\ img_max_index self' = img_max_index self)
  /\ (forall inp self w self' w',
        tick inp self w = Ok (Some (self', w')) ->
        shown_in_bounds self').
Proof.
  split; [ | split].
  - intros pressed self Hspeed.
    destruct (play_movie_ok pressed self Hspeed) as (shown & Heq & _).
    eexists. split; [exact Heq | ].
    destruct (play_movie_inv _ _ _ Heq) as (Hmax & _ & _ & Hb).
    split; [exact Hmax | exact Hb].
  - intros k self Hkey Hk Hi.
    destruct (speed_keys_keep_indices k self Hkey Hk Hi)
      as (self' & Heq & Hs & Hm & _).
    exists self'. auto.
  - intros inp self w self' w' Htick. unfold tick in Htick.
    destruct (handle_key_press self) as [[continue self1] | e];
      cbn [bind] in Htick; [ | discriminate].
    destruct continue; cbn [negb] in Htick; [ | discriminate].
    destruct (if capture_due (t_loop inp) self1
              then capture_image (camera inp) (t_stamp inp) (t_saved inp)
                     self1 w
              else Ok (self1, w)) as [[self2 w2] | e];
      cbn [bind] in Htick; [ | discriminate].
    destruct (play_movie (pressed inp) self2) as [self3 | e] eqn:Hplay;
      cbn [bind] in Htick; [ | discriminate].
    injection Htick as <- <-.
    apply (play_movie_inv _ _ _ Hplay).
Qed.

End PlaybackBounds.

Lemma playback_bounds_witness :
  playback_speed (set_img_max_index 3 (init 0)) <> 0
  /\ exists self',
       play_movie ord_f (set_img_max_index 3 (init 0)) = Ok self'
       /\ img_max_index self' = img_max_index (set_img_max_index 3 (init 0))
       /\ shown_in_bounds self'.
Proof.
  assert (H : playback_speed (set_img_max_index 3 (init 0)) <> 0)
    by (cbn; discriminate).
  split; [exact H | ].
  exact (proj1 (@playback_bounds decimal_text) ord_f
           (set_img_max_index 3 (init 0)) H).
Defined.

(** C3 as stated fails at the two places where the source sets the shown
    index to 1: after [__init__] the maximum is 0, and after selecting a
    project with one image the maximum is 1. *)
Lemma playback_bounds_broken_by_reset :
  (img_max_index (init 0) = 0 /\ img_shown_index (init 0) = 1
   /\ ~ shown_in_bounds (init 0))
  /\ match handle_key_press Example.browsing with
     | Ok (_, self') =>
         selected_project self' = "B" /\ img_max_index self' = 1
         /\ img_shown_index self' = 1 /\ ~ shown_in_bounds self'
     | Raise _ => False
     end.
Proof.
  split.
  - split; [reflexivity | split; [reflexivity | ]].
    intros [_ H]. specialize (H eq_refl). discriminate H.
  - cbn. repeat split.
    intros [H _]. cbn in H. lia.
Qed.

(** ** Text of integers *)

Lemma digits_string_of_uint (d : Decimal.uint) (b : bool) :
  d <> Decimal.Nil \/ b = true ->
  Py.digits b (NilEmpty.string_of_uint d) = Some d.
Proof.
  revert b.
  induction d as [ | d IH | d IH | d IH | d IH | d IH | d IH | d IH | d IH
                   | d IH | d IH ]; intros b Hb;
    try (cbn [NilEmpty.string_of_uint Py.digits Py.digit_of];
         rewrite (IH true) by (right; reflexivity); reflexivity).
  destruct Hb as [Hb | ->]; [now elim Hb | reflexivity].
Qed.

Lemma string_of_uint_head (d : Decimal.uint) :
  d <> Decimal.Nil ->
  exists c r,
    NilEmpty.string_of_uint d = String c r
    /\ c <> "-"%char /\ c <> "+"%char.
Proof.
  destruct d; intros Hd; try (now elim Hd);
    cbn [NilEmpty.string_of_uint]; do 2 eexists;
    (split; [reflexivity | split; discriminate]).
Qed.

(** [int(str(n)) == n] *)
Lemma int_str_int (n : Z) : Py.int_ (Py.str_int n) = Some n.
Proof.
  unfold Py.str_int. destruct n as [ | p | p].
  - reflexivity.
  - pose proof (DecimalPos.Unsigned.to_uint_nonnil p) as Hnil.
    change (Z.to_int (Z.pos p)) with (Decimal.Pos (Pos.to_uint p)).
    cbn [NilZero.string_of_int].
    assert (Hs : NilZero.string_of_uint (Pos.to_uint p)
                 = NilEmpty.string_of_uint (Pos.to_uint p)).
    { destruct (Pos.to_uint p); [now elim Hnil | reflexivity ..]. }
    rewrite Hs.
    assert (Hd : Py.digits false (NilEmpty.string_of_uint (Pos.to_uint p))
                 = Some (Pos.to_uint p))
      by (apply digits_string_of_uint; left; exact Hnil).
    destruct (string_of_uint_head _ Hnil) as (c & r & Hcr & Hm & Hp).
    assert (Hint : Py.int_ (NilEmpty.string_of_uint (Pos.to_uint p))
                   = option_map Z.of_uint
                       (Py.digits false
                          (NilEmpty.string_of_uint (Pos.to_uint p)))).
    { rewrite Hcr. unfold Py.int_.
      destruct c as [[] [] [] [] [] [] [] []]; try reflexivity;
        [now elim Hp | now elim Hm]. }
    rewrite Hint, Hd. cbn [option_map]. f_equal.
    exact (DecimalZ.of_to (Z.pos p)).
  - pose proof (DecimalPos.Unsigned.to_uint_nonnil p) as Hnil.
    change (Z.to_int (Z.neg p)) with (Decimal.Neg (Pos.to_uint p)).
    cbn [NilZero.string_of_int].
    assert (Hs : NilZero.string_of_uint (Pos.to_uint p)
                 = NilEmpty.string_of_uint (Pos.to_uint p)).
    { destruct (Pos.to_uint p); [now elim Hnil | reflexivity ..]. }
    rewrite Hs. unfold Py.int_.
    rewrite digits_string_of_uint by (left; exact Hnil).
    cbn [option_map]. f_equal.
    exact (DecimalZ.of_to (Z.neg p)).
Qed.

Lemma str_int_inj (a b : Z) : Py.str_int a = Py.str_int b -> a = b.
Proof.
  intros H. pose proof (int_str_int a) as Ha. rewrite H, int_str_int in Ha.
  now injection Ha.
Qed.

Lemma length_append (a b : string) :
  String.length (a ++ b) = (String.length a + String.length b)%nat.
Proof. induction a as [ | c a IH]; cbn; [reflexivity | now rewrite IH]. Qed.

Lemma append_inv_tail (a b s : string) : a ++ s = b ++ s -> a = b.
Proof.
  revert b. induction a as [ | c a IH]; intros [ | c' b] H; cbn in H.
  - reflexivity.
  - apply (f_equal String.length) in H. cbn in H.
    rewrite length_append in H. lia.
  - apply (f_equal String.length) in H. cbn in H.
    rewrite length_append in H. lia.
  - injection H as -> H. f_equal. now apply IH.
Qed.

Lemma frame_name_inj (i j : Z) : frame_name i = frame_name j -> i = j.
Proof.
  unfold frame_name, img_file_prefix. intros H. cbn in H.
  injection H as H. apply append_inv_tail in H. now apply str_int_inj.
Qed.

(** ** Capture *)

Lemma lookup_update_same {A : Type} (k : string) (v : A)
  (l : list (string * A)) : lookup k (update k v l) = Some v.
Proof.
  induction l as [ | [k' v'] l IH]; cbn.
  - now rewrite String.eqb_refl.
  - destruct (String.eqb k' k) eqn:E; cbn.
    + now rewrite String.eqb_refl.
    + now rewrite E.
Qed.

Lemma update_fresh {A : Type} (k : string) (v : A) (l : list (string * A)) :
  lookup k l = None -> update k v l = (l ++ [(k, v)])%list.
Proof.
  induction l as [ | [k' v'] l IH]; cbn; [reflexivity | ].
  destruct (String.eqb k' k); [discriminate | ].
  intros H. now rewrite IH.
Qed.

Lemma lookup_app_fresh {A : Type} (k : string) (v : A)
  (l : list (string * A)) :
  lookup k l = None -> lookup k (l ++ [(k, v)])%list = Some v.
Proof.
  induction l as [ | [k' v'] l IH]; cbn.
  - now rewrite String.eqb_refl.
  - destruct (String.eqb k' k); [discriminate | exact IH].
Qed.

Lemma lookup_In {A : Type} (k : string) (v : A) (l : list (string * A)) :
  lookup k l = Some v -> In (k, v) l.
Proof.
  induction l as [ | [k' v'] l IH]; cbn; [discriminate | ].
  destruct (String.eqb_spec k' k) as [-> | _].
  - intros [= ->]. now left.
  - intros H. right. now apply IH.
Qed.

Lemma sequential_frames_fresh entries n :
  sequential_frames entries n -> lookup (frame_name n) entries = None.
Proof.
  intros [_ Hall]. destruct (lookup (frame_name n) entries) eqn:E; [ | easy].
  apply lookup_In, Hall in E. destruct E as (_ & i & Hi & Hname).
  apply frame_name_inj in Hname. lia.
Qed.


Section Capture.

Context {float_text : FloatText}.

Lemma add_timestamp_ok now fr self :
  add_timestamp_to_image now fr self = Ok (stamped now fr self).
Proof. reflexivity. Qed.

Lemma capture_image_success fr t_stamp t_saved self w :
  cap self = true ->
  capture_image (Some fr) t_stamp t_saved self w
  = Ok (captured t_saved self,
        write_log_file (captured t_saved self)
          (imwrite (active_project self)
             (frame_name (img_capture_index self))
             (stamped t_stamp fr self) w)).
Proof.
  intros Hcap. unfold capture_image. rewrite Hcap. reflexivity.
Qed.

Lemma project_dir_write_log self w project :
  project_dir (write_log_file self w) project = project_dir w project.
Proof. reflexivity. Qed.

Lemma imwrite_sequential project entries n data w :
  project_dir w project = Some entries ->
  sequential_frames entries n ->
  project_dir (imwrite project (frame_name n) data w) project
  = Some (entries ++ [(frame_name n, PFile data)])%list.
Proof.
  intros Hdir Hseq. unfold project_dir in Hdir. unfold imwrite.
  destruct (projects_folder w) as [root | ] eqn:Hroot; [ | discriminate].
  destruct (lookup project root) as [[ | entries0] | ] eqn:Hl;
    try discriminate.
  injection Hdir as ->.
  pose proof (sequential_frames_fresh _ _ Hseq) as Hfresh.
  rewrite Hfresh. unfold project_dir. cbn [projects_folder set_projects_folder].
  rewrite lookup_update_same. now rewrite update_fresh.
Qed.



End Capture.



(** ** A camera read that fails *)

Ltac bind_inv H :=
  match type of H with
  | bind ?r _ = Ok _ =>
      let E := fresh "E" in
      destruct r eqn:E; cbn [bind] in H; [ | discriminate H]
  end.

Lemma select_step_session step self self' :
  select_step step self = Ok self' -> same_session self self'.
Proof.
  unfold select_step. intros H.
  bind_inv H. bind_inv H. bind_inv H.
  injection H as <-. repeat split.
Qed.

Lemma same_session_refl self : same_session self self.
Proof. repeat split. Qed.

Lemma handle_key_press_session self continue self' :
  handle_key_press self = Ok (continue, self') -> same_session self self'.
Proof.
  unfold handle_key_press. intros H.
  destruct (key self) as [k | ];
    [ | injection H as <- <-; apply same_session_refl].
  destruct ((k =? ord_f) || (k =? ord_b)).
  { bind_inv H. bind_inv H. injection H as <- <-. repeat split. }
  destruct (k =? ord_p).
  { destruct (playback_speed self >? 0); injection H as <- <-;
      repeat split. }
  destruct (k =? ord_s).
  { bind_inv H. injection H as <- <-. eapply select_step_session; eauto. }
  destruct (k =? ord_a).
  { bind_inv H. injection H as <- <-. eapply select_step_session; eauto. }
  destruct (k =? ord_q); injection H as <- <-; apply same_session_refl.
Qed.

Lemma play_movie_session pressed self self' :
  play_movie pressed self = Ok self' -> same_session self self'.
Proof.
  unfold play_movie. intros H. bind_inv H. bind_inv H.
  injection H as <-. repeat split.
Qed.

Lemma same_session_trans a b c :
  same_session a b -> same_session b c -> same_session a c.
Proof.
  unfold same_session. intros (-> & -> & -> & -> & ->) H. exact H.
Qed.

Lemma capture_due_later now now' self self' :
  last_picture_time self' = last_picture_time self ->
  capture_due now self = true ->
  (now <= now')%Q ->
  capture_due now' self' = true.
Proof.
  unfold capture_due, CAPTURE_INTERVAL. intros -> Hdue Hle.
  apply Qle_bool_iff. apply Qle_bool_iff in Hdue. lra.
Qed.

Section ReadFailure.

Context {float_text : FloatText}.

(** C5. When the camera read fails, [capture_image] returns without
    raising and changes nothing: the capture index, the record in
    [log.txt], the rest of the state and the files are as before.  The
    pass of the loop in which this happens leaves the session attributes
    and the files unchanged, and since [last_picture_time] is not moved,
    the capture is due again at every later reading of the clock. *)
Theorem capture_read_failure :
  (forall t_stamp t_saved self w,
      capture_image None t_stamp t_saved self w = Ok (self, w))
  /\ (forall inp self w self' w',
        camera inp = None ->
        tick inp self w = Ok (Some (self', w')) ->
        w' = w
        /\ same_session self self'
        /\ forall now',
            capture_due (t_loop inp) self = true ->
            (t_loop inp <= now')%Q ->
            capture_due now' self' = true).
Proof.
  split.
  - intros t_stamp t_saved self w. unfold capture_image.
    destruct (cap self); reflexivity.
  - intros inp self w self' w' Hcam Htick. unfold tick in Htick.
    bind_inv Htick. destruct a as [continue self1].
    destruct continue; cbn [negb] in Htick; [ | discriminate].
    rewrite Hcam in Htick.
    assert (Hcapture :
              (if capture_due (t_loop inp) self1
               then capture_image None (t_stamp inp) (t_saved inp) self1 w
               else Ok (self1, w)) = Ok (self1, w)).
    { destruct (capture_due (t_loop inp) self1); [ | reflexivity].
      unfold capture_image. destruct (cap self1); reflexivity. }
    rewrite Hcapture in Htick. cbn [bind] in Htick.
    bind_inv Htick. injection Htick as <- <-.
    pose proof (handle_key_press_session _ _ _ E) as H1.
    pose proof (play_movie_session _ _ _ E0) as H2.
    pose proof (same_session_trans _ _ _ H1 H2) as H3.
    split; [reflexivity | split; [exact H3 | ]].
    intros now' Hdue Hle.
    apply (capture_due_later (t_loop inp) now' self); [ | exact Hdue | exact Hle].
    apply H3.
Qed.

End ReadFailure.

Lemma capture_read_failure_witness :
  camera (mkTick 105 None 105 105 (-1)) = None
  /\ tick (mkTick 105 None 105 105 (-1)) Example.recording
       Example.two_frames_world
     = Ok (Some (set_key (Some (-1)) (set_img_shown_index 0 Example.recording),
                 Example.two_frames_world))
  /\ capture_due 105 Example.recording = true
  /\ capture_due 111
       (set_key (Some (-1)) (set_img_shown_index 0 Example.recording)) = true.
Proof.
  assert (Hcam : camera (mkTick 105 None 105 105 (-1)) = None) by reflexivity.
  assert (Htick : tick (mkTick 105 None 105 105 (-1)) Example.recording
                    Example.two_frames_world
                  = Ok (Some (set_key (Some (-1))
                                (set_img_shown_index 0 Example.recording),
                              Example.two_frames_world))) by reflexivity.
  assert (Hdue : capture_due 105 Example.recording = true) by reflexivity.
  split; [exact Hcam | split; [exact Htick | split; [exact Hdue | ]]].
  destruct (proj2 (@capture_read_failure decimal_text) _ _ _ _ _ Hcam Htick)
    as (_ & _ & Hlater).
  apply (Hlater 111%Q Hdue). vm_compute. discriminate.
Defined.

(** ** Start-up and the maximum index *)

Lemma unselected_speed self v :
  unselected self -> v <> 0 -> unselected (set_playback_speed v self).
Proof.
  intros (Hmax & _ & Hi & Hs & Ha) Hv. repeat split; assumption || apply Hi.
Qed.

Lemma unselected_speed_index self i :
  unselected self -> 0 <= i < 5 ->
  unselected (set_playback_speed_index i self).
Proof.
  intros (Hmax & Hspeed & _ & Hs & Ha) Hi.
  repeat split; assumption || apply Hi.
Qed.

Lemma handle_key_press_unselected self :
  unselected self ->
  exists continue self',
    handle_key_press self = Ok (continue, self')
    /\ unselected self'
    /\ img_shown_index self' = img_shown_index self
    /\ (key self = None -> continue = true).
Proof.
  intros Hun. pose proof Hun as (Hmax & Hspeed & Hi & Hs & Ha).
  destruct (key self) as [k | ] eqn:Hkey.
  2: { exists true, self. unfold handle_key_press. rewrite Hkey. auto. }
  assert (Hks : (k =? ord_s) = false)
    by (apply Z.eqb_neq; intros ->; now apply Hs).
  assert (Hka : (k =? ord_a) = false)
    by (apply Z.eqb_neq; intros ->; now apply Ha).
  destruct (index_speeds _ Hi) as [_ Hnz].
  destruct (Z.eq_dec k ord_f) as [Hf | Hf];
    [ | destruct (Z.eq_dec k ord_b) as [Hb | Hb]].
  1, 2: do 2 eexists; split;
    [apply (handle_key_press_speed self k Hkey); [tauto | exact Hi] | ];
    (split; [ | split; [reflexivity | discriminate]]);
    (apply unselected_speed_index; [ | apply Z.mod_pos_bound; lia]);
    (apply unselected_speed; [exact Hun | ]);
    unfold direction; destruct (k =? ord_b); lia.
  unfold handle_key_press. rewrite Hkey.
  apply Z.eqb_neq in Hf, Hb. rewrite Hf, Hb, Hks, Hka. cbn [orb].
  destruct (k =? ord_p).
  { destruct (playback_speed self >? 0); do 2 eexists;
      (split; [reflexivity | ]);
      (split; [ | split; [reflexivity | discriminate]]);
      (apply unselected_speed; [exact Hun | ]);
      unfold DEFAULT_PLAYBACK_SPEED; lia. }
  destruct (k =? ord_q); do 2 eexists; (split; [reflexivity | ]);
    (split; [exact Hun | split; [reflexivity | discriminate]]).
Qed.

Section Startup.

Context {float_text : FloatText}.

Lemma tick_unselected inp self w :
  quiet inp ->
  unselected self ->
  (tick inp self w = Ok None /\ key self <> None)
  \/ exists self',
      tick inp self w = Ok (Some (self', w))
      /\ unselected self'
      /\ img_shown_index self' = 0.
Proof.
  intros (Hcam & Hs & Ha) Hun.
  destruct (handle_key_press_unselected self Hun)
    as (continue & self1 & Hkey & Hun1 & _ & Hnone).
  unfold tick. rewrite Hkey. cbn [bind].
  destruct continue; cbn [negb].
  2: { left. split; [reflexivity | ]. intros H. now specialize (Hnone H). }
  right. rewrite Hcam.
  assert (Hcapture :
            (if capture_due (t_loop inp) self1
             then capture_image None (t_stamp inp) (t_saved inp) self1 w
             else Ok (self1, w)) = Ok (self1, w)).
  { destruct (capture_due (t_loop inp) self1); [ | reflexivity].
    unfold capture_image. destruct (cap self1); reflexivity. }
  rewrite Hcapture. cbn [bind].
  destruct Hun1 as (Hmax & Hspeed & Hi & _).
  destruct (play_movie_ok (pressed inp) self1 Hspeed)
    as (shown & Hplay & H0 & _).
  rewrite Hplay. cbn [bind]. eexists. split; [reflexivity | ].
  unfold unselected.
  cbn [img_max_index playback_speed playback_speed_index key
       img_shown_index set_key set_img_shown_index].
  specialize (H0 Hmax).
  repeat split; try assumption; try lia; try congruence.
Qed.

Lemma main_loop_unselected inputs :
  Forall quiet inputs ->
  forall self w,
    unselected self ->
    exists self',
      main_loop inputs self w = Ok (self', w)
      /\ unselected self'
      /\ (img_shown_index self = 0 -> img_shown_index self' = 0)
      /\ (key self = None -> inputs <> [] -> img_shown_index self' = 0).
Proof.
  induction 1 as [ | inp rest Hq _ IH]; intros self w Hun.
  - exists self.
    split; [reflexivity | split; [exact Hun | split; [auto | ]]].
    intros _ H. now elim H.
  - cbn [main_loop].
    destruct (tick_unselected inp self w Hq Hun)
      as [[Htick Hkey] | (self1 & Htick & Hun1 & Hshown)];
      rewrite Htick; cbn [bind].
    + exists self.
      split; [reflexivity | split; [exact Hun | split; [auto | ]]].
      intros H. now elim Hkey.
    + destruct (IH self1 w Hun1) as (self' & Hrun & Hun' & Hkeep & _).
      exists self'.
      split; [exact Hrun | split; [exact Hun' | split; auto]].
Qed.

Lemma read_log_file_playback self w self' :
  read_log_file self w = Ok self' ->
  img_max_index self' = img_max_index self
  /\ key self' = key self
  /\ playback_speed self' = playback_speed self
  /\ playback_speed_index self' = playback_speed_index self.
Proof.
  unfold read_log_file. intros H.
  destruct (log_txt w); [ | injection H as <-; auto].
  destruct (Py.readline (Py.universal_newlines s)) as [line1 r1].
  destruct (Py.readline r1) as [line2 r2].
  bind_inv H. destruct (Py.readline r2) as [line3 r3].
  bind_inv H. injection H as <-. auto.
Qed.

Lemma get_projects_playback self w self' w' :
  get_projects self w = Ok (self', w') ->
  img_max_index self' = img_max_index self
  /\ key self' = key self
  /\ playback_speed self' = playback_speed self
  /\ playback_speed_index self' = playback_speed_index self.
Proof.
  unfold get_projects. intros H. bind_inv H. bind_inv H.
  destruct a0 as [projects_list w1]. bind_inv H.
  injection H as <- <-. auto.
Qed.

Lemma select_project_playback now self w self' w' :
  select_project now self w = Ok (self', w') ->
  img_max_index self' = img_max_index self
  /\ key self' = key self
  /\ playback_speed self' = playback_speed self
  /\ playback_speed_index self' = playback_speed_index self.
Proof.
  unfold select_project. intros H. bind_inv H.
  destruct a as [project | ].
  - injection H as <- <-. auto.
  - destruct (Py.in_ (active_project self) (projects self));
      injection H as <- <-; auto.
Qed.

Lemma setup_project_playback now self w self' w' :
  setup_project now self w = Ok (self', w') ->
  img_max_index self' = img_max_index self
  /\ key self' = key self
  /\ playback_speed self' = playback_speed self
  /\ playback_speed_index self' = playback_speed_index self.
Proof.
  unfold setup_project. intros H. bind_inv H. bind_inv H.
  destruct a0 as [self2 w2]. bind_inv H. destruct a0 as [self3 w3].
  bind_inv H. injection H as <- <-.
  cbn [img_max_index key playback_speed playback_speed_index
       set_selected_project_index set_selected_project].
  destruct (select_project_playback _ _ _ _ _ E1) as (-> & -> & -> & ->).
  destruct (get_projects_playback _ _ _ _ E0) as (-> & -> & -> & ->).
  destruct (read_log_file_playback _ _ _ E) as (-> & -> & -> & ->).
  auto.
Qed.

(** C9. When [setup_project] completes, [img_max_index] is still 0,
    whatever the project it resumed holds; from then on, as long as no
    select key arrives and no capture succeeds, every pass of the loop
    leaves [img_max_index] at 0 and the shown index at 0. *)
Theorem startup_max_index_zero c t0 now w self w' :
  setup_project now (set_cap c (init t0)) w = Ok (self, w') ->
  img_max_index self = 0
  /\ selected_project self = active_project self
  /\ forall inputs,
      Forall quiet inputs ->
      exists self',
        main_loop inputs self w' = Ok (self', w')
        /\ img_max_index self' = 0
        /\ (inputs <> [] -> img_shown_index self' = 0).
Proof.
  intros Hsetup.
  destruct (setup_project_playback _ _ _ _ _ Hsetup) as (Hmax & Hkey & Hsp & Hi).
  cbn in Hmax, Hkey, Hsp, Hi.
  split; [exact Hmax | split].
  - unfold setup_project in Hsetup. bind_inv Hsetup. bind_inv Hsetup.
    destruct a0 as [self2 w2]. bind_inv Hsetup. destruct a0 as [self3 w3].
    bind_inv Hsetup. injection Hsetup as <- <-. reflexivity.
  - intros inputs Hquiet.
    assert (Hun : unselected self).
    { unfold unselected. rewrite Hmax, Hkey, Hsp, Hi.
      unfold DEFAULT_PLAYBACK_SPEED. repeat split; lia || discriminate. }
    destruct (main_loop_unselected inputs Hquiet self w' Hun)
      as (self' & Hrun & (Hmax' & _) & _ & Hshown).
    exists self'. split; [exact Hrun | split; [exact Hmax' | ]].
    intros Hne. now apply Hshown.
Qed.

End Startup.

Lemma startup_max_index_zero_witness :
  setup_project 200 (set_cap true (init 150)) Example.two_frames_world
  = Ok (Example.resumed, Example.two_frames_world)
  /\ frame_count Example.two_frames_world "A" = Some 2
  /\ img_max_index Example.resumed = 0
  /\ exists self',
       main_loop Example.two_quiet_ticks Example.resumed
         Example.two_frames_world
       = Ok (self', Example.two_frames_world)
       /\ img_max_index self' = 0
       /\ img_shown_index self' = 0.
Proof.
  assert (Hsetup :
            setup_project 200 (set_cap true (init 150))
              Example.two_frames_world
            = Ok (Example.resumed, Example.two_frames_world))
    by reflexivity.
  destruct (@startup_max_index_zero decimal_text true 150 200
              Example.two_frames_world Example.resumed
              Example.two_frames_world Hsetup) as (Hmax & _ & Hloop).
  split; [exact Hsetup | split; [reflexivity | split; [exact Hmax | ]]].
  assert (Hquiet : Forall quiet Example.two_quiet_ticks).
  { repeat constructor; cbn; discriminate. }
  destruct (Hloop Example.two_quiet_ticks Hquiet) as (self' & Hrun & Hm & Hs).
  exists self'. split; [exact Hrun | split; [exact Hm | ]].
  apply Hs. discriminate.
Defined.

(** ** The resume policy *)

Lemma is_directory_empty_ok w project :
  project_dir w project <> None ->
  is_directory_empty w project = Ok (dir_empty w project).
Proof.
  unfold is_directory_empty, listdir_project, dir_empty, project_dir.
  destruct (projects_folder w) as [root | ]; [ | now intros H; elim H].
  destruct (lookup project root) as [[ | entries] | ];
    try (now intros H; elim H).
  intros _. cbn [bind]. now destruct entries.
Qed.

Lemma first_empty_find w projects_list :
  Forall (fun p => project_dir w p <> None) projects_list ->
  first_empty w projects_list = Ok (find (dir_empty w) projects_list).
Proof.
  induction 1 as [ | project rest Hdir _ IH]; [reflexivity | ].
  cbn [first_empty find]. rewrite (is_directory_empty_ok _ _ Hdir).
  cbn [bind]. now destruct (dir_empty w project).
Qed.

Section ResumePolicy.

Context {float_text : FloatText}.

Lemma listdir_project_dir w project entries :
  listdir_project w project = Ok entries -> project_dir w project <> None.
Proof.
  unfold listdir_project, project_dir.
  destruct (projects_folder w) as [root | ]; [ | discriminate].
  destruct (lookup project root) as [[ | entries0] | ]; discriminate.
Qed.

Lemma count_files_directories w projects_list :
  forall dict dict',
    count_files w projects_list dict = Ok dict' ->
    Forall (fun p => project_dir w p <> None) projects_list.
Proof.
  induction projects_list as [ | project rest IH]; intros dict dict' H.
  - constructor.
  - cbn [count_files] in H. bind_inv H. constructor.
    + exact (listdir_project_dir _ _ _ E).
    + exact (IH _ _ H).
Qed.

(** Every project that [get_projects] lists has its directory, so the
    scan of [select_project] raises nothing at start-up. *)
Lemma get_projects_directories self w self' w' :
  get_projects self w = Ok (self', w') ->
  Forall (fun p => project_dir w' p <> None) (projects self').
Proof.
  unfold get_projects. intros H. bind_inv H. bind_inv H.
  destruct a0 as [projects_list w1]. bind_inv H.
  injection H as <- <-. cbn [projects set_projects].
  exact (count_files_directories _ _ _ _ E1).
Qed.

(** C2 (amended). [select_project] scans the catalog in order.  The first
    project whose directory is empty becomes the active project and the
    session is reset: capture index 0, start time now, record written at
    once.  Without an empty project, an active project that is in the
    catalog is kept and nothing is written.  Otherwise the default name
    becomes the active project and the record is written, while the
    capture index and the start time stay as they were. *)
Theorem select_project_policy now self w :
  Forall (fun p => project_dir w p <> None) (projects self) ->
  (forall project,
      find (dir_empty w) (projects self) = Some project ->
      select_project now self w
      = Ok (reset_session project now self,
            write_log_file (reset_session project now self) w))
  /\ (find (dir_empty w) (projects self) = None ->
      Py.in_ (active_project self) (projects self) = true ->
      select_project now self w = Ok (self, w))
  /\ (find (dir_empty w) (projects self) = None ->
      Py.in_ (active_project self) (projects self) = false ->
      select_project now self w
      = Ok (set_active_project DEFAULT_PROJECT self,
            write_log_file (set_active_project DEFAULT_PROJECT self) w)
      /\ img_capture_index (set_active_project DEFAULT_PROJECT self)
         = img_capture_index self
      /\ program_start_time (set_active_project DEFAULT_PROJECT self)
         = program_start_time self).
Proof.
  intros Hdirs. unfold select_project.
  rewrite (first_empty_find _ _ Hdirs). cbn [bind].
  split; [ | split].
  - intros project ->. reflexivity.
  - intros -> ->. reflexivity.
  - intros -> ->. repeat split.
Qed.

End ResumePolicy.

Lemma select_project_policy_witness :
  Forall (fun p => project_dir Example.empty_project_world p <> None)
    (projects Example.with_empty_project)
  /\ find (dir_empty Example.empty_project_world)
       (projects Example.with_empty_project) = Some "B"
  /\ select_project 200 Example.with_empty_project Example.empty_project_world
     = Ok (reset_session "B" 200 Example.with_empty_project,
           write_log_file (reset_session "B" 200 Example.with_empty_project)
             Example.empty_project_world).
Proof.
  assert (Hdirs : Forall
                    (fun p => project_dir Example.empty_project_world p
                              <> None)
                    (projects Example.with_empty_project))
    by (repeat constructor; cbn; discriminate).
  assert (Hfind : find (dir_empty Example.empty_project_world)
                    (projects Example.with_empty_project) = Some "B")
    by reflexivity.
  split; [exact Hdirs | split; [exact Hfind | ]].
  exact (proj1 (@select_project_policy decimal_text 200
                  Example.with_empty_project Example.empty_project_world
                  Hdirs) "B" Hfind).
Defined.

(** C2 as stated fails in its third case: the fall-back to the default
    project resets nothing.  With a record naming a project that is gone,
    a catalog without an empty project, capture index 7 and start time
    100, selecting at time 200 leaves the index at 7 and the start at 100,
    and writes them with the default name. *)
Lemma select_project_default_keeps_session :
  match select_project 200 Example.orphaned Example.one_project_world with
  | Ok (self', w') =>
      active_project self' = DEFAULT_PROJECT
      /\ img_capture_index self' = 7
      /\ img_capture_index self' <> 0
      /\ program_start_time self' = 100%Q
      /\ program_start_time self' <> 200%Q
      /\ log_txt w'
         = Some ("default" ++ Py.nl ++ "7" ++ Py.nl ++ "100.0")
  | Raise _ => False
  end.
Proof. vm_compute. repeat split; discriminate. Qed.

(** ** Lines of text *)

Lemma occurs_app c a b :
  Py.occurs c (a ++ b) = Py.occurs c a || Py.occurs c b.
Proof.
  induction a as [ | x a IH]; cbn; [reflexivity | ].
  now rewrite IH, orb_assoc.
Qed.

Lemma universal_newlines_id s :
  Py.occurs Py.CR s = false -> Py.universal_newlines s = s.
Proof.
  induction s as [ | c r IH]; cbn [Py.occurs Py.universal_newlines];
    [reflexivity | ].
  intros H. apply orb_false_iff in H. destruct H as [Hc Hr].
  rewrite Hc. now rewrite IH.
Qed.

Lemma readline_line s r :
  Py.occurs Py.LF s = false ->
  Py.readline (s ++ String Py.LF r) = (s ++ Py.nl, r).
Proof.
  induction s as [ | c s IH]; cbn [Py.occurs Py.readline append].
  - intros _. now rewrite Ascii.eqb_refl.
  - intros H. apply orb_false_iff in H. destruct H as [Hc Hs].
    rewrite Hc, (IH Hs). reflexivity.
Qed.

Lemma readline_last s :
  Py.occurs Py.LF s = false -> Py.readline s = (s, "").
Proof.
  induction s as [ | c s IH]; cbn [Py.occurs Py.readline]; [reflexivity | ].
  intros H. apply orb_false_iff in H. destruct H as [Hc Hs].
  rewrite Hc, (IH Hs). reflexivity.
Qed.

Lemma length_lstrip s : (String.length (Py.lstrip s) <= String.length s)%nat.
Proof.
  induction s as [ | c s IH]; cbn; [lia | ].
  destruct (Py.is_space c); cbn; lia.
Qed.

Lemma length_rstrip s : (String.length (Py.rstrip s) <= String.length s)%nat.
Proof.
  induction s as [ | c s IH]; cbn; [lia | ].
  destruct (Py.rstrip s); [destruct (Py.is_space c) | ]; cbn in *; lia.
Qed.

Lemma rstrip_app_space s x :
  Py.is_space x = true -> Py.rstrip (s ++ String x "") = Py.rstrip s.
Proof.
  intros Hx. induction s as [ | c s IH]; cbn [append Py.rstrip].
  - now rewrite Hx.
  - now rewrite IH.
Qed.

Lemma strip_fixed_head c r :
  Py.strip (String c r) = String c r -> Py.is_space c = false.
Proof.
  unfold Py.strip. cbn [Py.lstrip].
  destruct (Py.is_space c); [ | reflexivity].
  intros H. apply (f_equal String.length) in H. cbn in H.
  pose proof (length_rstrip (Py.lstrip r)).
  pose proof (length_lstrip r). lia.
Qed.

(** A line read back with its newline strips to what was written. *)
Lemma strip_line s : Py.strip s = s -> Py.strip (s ++ Py.nl) = s.
Proof.
  destruct s as [ | c r]; [reflexivity | ].
  intros H. pose proof (strip_fixed_head _ _ H) as Hc.
  unfold Py.strip in *. cbn [append Py.lstrip] in *. rewrite Hc in *.
  change (String c (r ++ Py.nl)) with (String c r ++ String Py.LF "").
  rewrite rstrip_app_space by reflexivity. exact H.
Qed.

Lemma strip_no_space s :
  all_chars (fun c => negb (Py.is_space c)) s = true -> Py.strip s = s.
Proof.
  intros H. unfold Py.strip.
  assert (Hl : Py.lstrip s = s).
  { destruct s as [ | c r]; [reflexivity | ]. cbn in H |- *.
    apply andb_true_iff in H. destruct H as [Hc _].
    apply negb_true_iff in Hc. now rewrite Hc. }
  rewrite Hl. induction s as [ | c r IH]; [reflexivity | ].
  cbn in H. apply andb_true_iff in H. destruct H as [Hc Hr].
  apply negb_true_iff in Hc. cbn [Py.rstrip].
  assert (Hlr : Py.lstrip r = r).
  { destruct r as [ | c' r']; [reflexivity | ]. cbn in Hr |- *.
    apply andb_true_iff in Hr. destruct Hr as [Hc' _].
    apply negb_true_iff in Hc'. now rewrite Hc'. }
  rewrite (IH Hr Hlr). destruct r; [now rewrite Hc | reflexivity].
Qed.

Lemma all_chars_weaken (P P' : ascii -> bool) s :
  (forall c, P c = true -> P' c = true) ->
  all_chars P s = true -> all_chars P' s = true.
Proof.
  intros Himp. induction s as [ | c r IH]; cbn; [reflexivity | ].
  intros H. apply andb_true_iff in H. destruct H as [Hc Hr].
  now rewrite (Himp _ Hc), IH.
Qed.

Lemma all_chars_occurs (P : ascii -> bool) c s :
  all_chars P s = true -> P c = false -> Py.occurs c s = false.
Proof.
  intros Hall Hc. induction s as [ | x r IH]; cbn; [reflexivity | ].
  cbn in Hall. apply andb_true_iff in Hall. destruct Hall as [Hx Hr].
  rewrite (IH Hr), orb_false_r.
  destruct (Ascii.eqb_spec x c) as [-> | _]; [congruence | reflexivity].
Qed.

Lemma string_of_uint_chars d :
  all_chars digit_or_minus (NilEmpty.string_of_uint d) = true.
Proof. induction d; cbn; auto. Qed.

Lemma str_int_chars n : all_chars digit_or_minus (Py.str_int n) = true.
Proof.
  unfold Py.str_int.
  assert (Hu : forall d, all_chars digit_or_minus (NilZero.string_of_uint d)
                         = true).
  { intros d. destruct d; try apply string_of_uint_chars. reflexivity. }
  destruct (Z.to_int n) as [d | d]; cbn [NilZero.string_of_int all_chars].
  - apply Hu.
  - now rewrite Hu.
Qed.

Lemma digit_or_minus_not_space c :
  digit_or_minus c = true -> negb (Py.is_space c) = true.
Proof.
  destruct c as [[] [] [] [] [] [] [] []]; cbn; intros H;
    reflexivity || discriminate H.
Qed.

Lemma str_int_line n :
  Py.strip (Py.str_int n ++ Py.nl) = Py.str_int n
  /\ Py.occurs Py.LF (Py.str_int n) = false
  /\ Py.occurs Py.CR (Py.str_int n) = false.
Proof.
  pose proof (str_int_chars n) as Hall.
  split; [ | split].
  - apply strip_line, strip_no_space.
    exact (all_chars_weaken _ _ _ digit_or_minus_not_space Hall).
  - now apply (all_chars_occurs _ _ _ Hall).
  - now apply (all_chars_occurs _ _ _ Hall).
Qed.

(** ** The decimal text of a float *)














(** ** SessionStore *)

Section Persistence.

Context {float_text : FloatText}.

(** Reading the record that is written for [s] *)
Lemma read_log_record s self w :
  log_follows s w ->
  Py.strip (active_project s) = active_project s ->
  Py.occurs Py.LF (active_project s) = false ->
  Py.occurs Py.CR (active_project s) = false ->
  Py.occurs Py.LF (float_str (program_start_time s)) = false ->
  Py.occurs Py.CR (float_str (program_start_time s)) = false ->
  float_ (Py.strip (float_str (program_start_time s)))
  = Some (program_start_time s) ->
  read_log_file self w
  = Ok (set_program_start_time (program_start_time s)
          (set_img_capture_index (img_capture_index s)
             (set_active_project (active_project s) self))).
Proof.
  intros Hlog Hstrip Hlf Hcr Hflf Hfcr Hfloat.
  destruct (str_int_line (img_capture_index s)) as (Hint & Hilf & Hicr).
  unfold read_log_file. rewrite Hlog. unfold log_record.
  rewrite universal_newlines_id.
  2: { rewrite !occurs_app, Hcr, Hicr, Hfcr. reflexivity. }
  change (active_project s ++ Py.nl ++ Py.str_int (img_capture_index s)
          ++ Py.nl ++ float_str (program_start_time s))
    with (active_project s
          ++ String Py.LF (Py.str_int (img_capture_index s)
                           ++ String Py.LF (float_str (program_start_time s)))).
  rewrite (readline_line _ _ Hlf), (readline_line _ _ Hilf),
    (readline_last _ Hflf).
  rewrite (strip_line _ Hstrip), Hint, int_str_int, Hfloat.
  reflexivity.
Qed.

(** C4 (amended). On a missing record [read_log_file] does not raise and
    leaves the state as it was: after [__init__] the active project is the
    empty name, the capture index 0 and the start time the time of
    construction. *)
Theorem read_log_file_missing self now w :
  log_txt w = None ->
  read_log_file self w = Ok self
  /\ read_log_file (init now) w = Ok (init now)
  /\ active_project (init now) = ""
  /\ img_capture_index (init now) = 0
  /\ program_start_time (init now) = now.
Proof.
  intros Hlog. unfold read_log_file. rewrite Hlog. repeat split.
Qed.

End Persistence.

(** Every float is a number with a finite decimal expansion: in lowest
    terms its denominator is a power of two. *)
Lemma float_finite_decimal (m : Z) (j : nat) :
  Z.gcd m (Z.pos (Pos.shiftl_nat 1 j)) = 1 ->
  finite_decimal (m # Pos.shiftl_nat 1 j) = true.
Proof.
  intros Hgcd. unfold finite_decimal. cbn [Qnum Qden].
  rewrite Hgcd. cbn [Z.eqb andb]. apply Z.eqb_eq.
  assert (Hsize : Pos.size_nat (Pos.shiftl_nat 1 j) = S j).
  { clear. induction j as [ | j IH]; [reflexivity | ].
    change (Pos.shiftl_nat 1 (S j)) with (xO (Pos.shiftl_nat 1 j))%positive.
    cbn [Pos.size_nat]. now rewrite IH. }
  assert (Hden : Z.pos (Pos.shiftl_nat 1 j) = 2 ^ Z.of_nat j).
  { clear. induction j as [ | j IH]; [reflexivity | ].
    change (Pos.shiftl_nat 1 (S j)) with (xO (Pos.shiftl_nat 1 j))%positive.
    rewrite Pos2Z.inj_xO, IH, Nat2Z.inj_succ, Z.pow_succ_r by lia.
    reflexivity. }
  rewrite Hsize, Hden, Nat2Z.inj_succ.
  change 10 with (2 * 5). rewrite Z.pow_mul_l, Z.pow_succ_r by lia.
  replace (2 * 2 ^ Z.of_nat j * 5 ^ Z.succ (Z.of_nat j))
    with (2 * 5 ^ Z.succ (Z.of_nat j) * 2 ^ Z.of_nat j) by ring.
  apply Z.mod_mul. pose proof (Z.pow_pos_nonneg 2 (Z.of_nat j)). lia.
Qed.




Lemma read_log_file_missing_witness :
  read_log_file Example.resumed (mkWorld None None) = Ok Example.resumed
  /\ read_log_file (init 150) (mkWorld None None) = Ok (init 150)
  /\ active_project (init 150) = ""
  /\ img_capture_index (init 150) = 0
  /\ program_start_time (init 150) = 150%Q.
Proof.
  apply (@read_log_file_missing decimal_text Example.resumed 150
           (mkWorld None None)).
  reflexivity.
Defined.

(** C4 as stated fails twice.  On a missing record the active project is
    left empty, not ["default"].  On a malformed record the [ValueError]
    of [int] or [float] is not caught: a record that ends after the
    project name, one whose index is not an integer and one whose time is
    not a number all raise. *)
Lemma read_log_file_not_default :
  (read_log_file (init 150) (mkWorld None None) = Ok (init 150)
   /\ active_project (init 150) <> DEFAULT_PROJECT)
  /\ read_log_file (init 150) (mkWorld (Some "A") None) = Raise ValueError
  /\ read_log_file (init 150)
       (mkWorld (Some ("A" ++ Py.nl ++ "two" ++ Py.nl ++ "100.5")) None)
     = Raise ValueError
  /\ read_log_file (init 150)
       (mkWorld (Some ("A" ++ Py.nl ++ "2" ++ Py.nl ++ "noon")) None)
     = Raise ValueError.
Proof.
  split; [split; [reflexivity | discriminate] | ].
  repeat split; reflexivity.
Qed.

(** The first start in a fresh environment, without [log.txt] and without
    [projects/]: the default project is created, found empty and made
    active, and the record is written. *)
Example fresh_environment :
  match setup_project 200 (set_cap true (init 150)) (mkWorld None None) with
  | Ok (self, w) =>
      active_project self = DEFAULT_PROJECT
      /\ img_capture_index self = 0
      /\ program_start_time self = 200%Q
      /\ projects self = [DEFAULT_PROJECT]
      /\ projects_folder w = Some [(DEFAULT_PROJECT, RDir [])]
      /\ log_txt w = Some ("default" ++ Py.nl ++ "0" ++ Py.nl ++ "200.0")
  | Raise _ => False
  end.
Proof. vm_compute. repeat split. Qed.

(** * Further properties *)

(** ** The codec beyond one day *)

Lemma decode_encode_any (elapsed : Z) :
  map_255_time (map_time_255 elapsed) = Ok (time_of_day elapsed).
Proof.
  unfold map_time_255, time_of_day. rewrite map_255_time_3.
  now rewrite !decode_channel by lia.
Qed.

Lemma time_of_day_parts (a : Z) :
  a mod 86400
  = 3600 * (a mod 86400 / 3600) + 60 * (a mod 3600 / 60) + a mod 60.
Proof.
  assert (H1 : (a mod 86400) mod 3600 = a mod 3600).
  { apply Z.mod_mod_divide. exists 24. lia. }
  assert (H2 : (a mod 3600) mod 60 = a mod 60).
  { apply Z.mod_mod_divide. exists 60. lia. }
  pose proof (Z.div_mod (a mod 86400) 3600 ltac:(lia)).
  pose proof (Z.div_mod (a mod 3600) 60 ltac:(lia)).
  lia.
Qed.

(** X1. Two elapsed times, of any sign, are encoded as the same triple
    exactly when they are the same time of day, that is when they are
    congruent modulo 86400. *)
Theorem encode_same_iff (a b : Z) :
  map_time_255 a = map_time_255 b <-> a mod 86400 = b mod 86400.
Proof.
  split.
  - unfold map_time_255. intros [= Hh Hm Hs].
    rewrite (time_of_day_parts a), (time_of_day_parts b). lia.
  - intros Hday.
    assert (Hm : a mod 3600 = b mod 3600).
    { rewrite <- (Z.mod_mod_divide a 86400 3600) by (exists 24; lia).
      rewrite <- (Z.mod_mod_divide b 86400 3600) by (exists 24; lia).
      now rewrite Hday. }
    assert (Hs : a mod 60 = b mod 60).
    { rewrite <- (Z.mod_mod_divide a 86400 60) by (exists 1440; lia).
      rewrite <- (Z.mod_mod_divide b 86400 60) by (exists 1440; lia).
      now rewrite Hday. }
    unfold map_time_255. now rewrite Hday, Hm, Hs.
Qed.

(** X2. Decoding tolerates a change of each stored channel that stays
    within the step of the encoding: up to 4 down or 5 up on the hour
    channel, up to 2 down or 1 up on the minute and second channels. *)
Theorem decode_tolerates_rounding (elapsed h m s dh dm ds : Z) :
  map_time_255 elapsed = [h; m; s] ->
  -4 <= dh <= 5 ->
  -2 <= dm <= 1 ->
  -2 <= ds <= 1 ->
  map_255_time [h + dh; m + dm; s + ds] = Ok (time_of_day elapsed).
Proof.
  unfold map_time_255, time_of_day. intros [= <- <- <-] Hh Hm Hs.
  rewrite map_255_time_3.
  replace (elapsed mod 86400 / 3600 * 10 + 4 + dh)
    with (elapsed mod 86400 / 3600 * 10 + (4 + dh)) by lia.
  replace (elapsed mod 3600 / 60 * 4 + 2 + dm)
    with (elapsed mod 3600 / 60 * 4 + (2 + dm)) by lia.
  replace (elapsed mod 60 * 4 + 2 + ds)
    with (elapsed mod 60 * 4 + (2 + ds)) by lia.
  now rewrite !decode_channel by lia.
Qed.

Lemma decode_tolerates_rounding_witness :
  map_time_255 3723 = [14; 10; 14]
  /\ map_255_time [14 + 5; 10 + (-2); 14 + 1] = Ok [1; 2; 3].
Proof.
  assert (H : map_time_255 3723 = [14; 10; 14]) by reflexivity.
  split; [exact H | ].
  apply (decode_tolerates_rounding 3723 14 10 14 5 (-2) 1 H); lia.
Defined.

Section Stamp.

Context {float_text : FloatText}.

(** X3. A frame that [add_timestamp_to_image] returns keeps the picture
    and carries a patch that [map_255_time] decodes, without raising, to
    the time of day of the seconds elapsed since the session start,
    truncated toward zero, also when the clock is behind the start. *)
Theorem stamp_decodes_to_elapsed now fr self stamped_frame :
  add_timestamp_to_image now fr self = Ok stamped_frame ->
  picture stamped_frame = picture fr
  /\ map_255_time (patch stamped_frame)
     = Ok (time_of_day
             (Py.int_of_float (now - program_start_time self)%Q)).
Proof.
  intros Hrun. rewrite add_timestamp_ok in Hrun. injection Hrun as <-.
  split; [reflexivity | ].
  apply decode_encode_any.
Qed.

End Stamp.

Lemma stamp_decodes_to_elapsed_witness :
  exists stamped_frame,
    add_timestamp_to_image 97 (mkFrame 2 [0; 0; 0]) Example.recording
    = Ok stamped_frame
    /\ picture stamped_frame = 2%nat
    /\ map_255_time (patch stamped_frame) = Ok [23; 59; 57].
Proof.
  destruct (add_timestamp_to_image 97 (mkFrame 2 [0; 0; 0])
              Example.recording) as [stamped_frame | e] eqn:Hrun;
    [ | vm_compute in Hrun; discriminate].
  exists stamped_frame. split; [reflexivity | ].
  exact (stamp_decodes_to_elapsed 97 (mkFrame 2 [0; 0; 0])
           Example.recording stamped_frame Hrun).
Defined.

(** ** Speed and position of the playback *)

Lemma presses_cons k rest self :
  presses (k :: rest) self
  = ('(_, self') <- handle_key_press (set_key (Some k) self) ;;
     presses rest self').
Proof. reflexivity. Qed.

(** X4. Pressing the same direction key [n] times from a speed index
    within the table never raises; it moves the speed index [n] places
    round the table, so every fifth press brings it back, and after the
    last press the speed is the table entry one place behind the index,
    positive for [f] and negative for [b]. *)
Theorem speed_cycle (k : Z) (n : nat) (self : TimeLapseCamera) :
  k = ord_f \/ k = ord_b ->
  0 <= playback_speed_index self < 5 ->
  exists self',
    presses (repeat k n) self = Ok self'
    /\ playback_speed_index self'
       = (playback_speed_index self + Z.of_nat n) mod 5
    /\ (n = 5%nat -> playback_speed_index self' = playback_speed_index self)
    /\ ((0 < n)%nat ->
        playback_speed self'
        = nth (Z.to_nat ((playback_speed_index self + Z.of_nat n - 1) mod 5))
            PLAYBACK_SPEEDS 0 * direction k
        /\ 0 < playback_speed self' * direction k).
Proof.
  intros Hk. revert self.
  induction n as [ | n IH]; intros self Hi.
  - exists self. split; [reflexivity | ].
    split; [rewrite Z.add_0_r, Z.mod_small by lia; reflexivity | ].
    split; [discriminate | lia].
  - cbn [repeat]. rewrite presses_cons.
    rewrite (handle_key_press_speed (set_key (Some k) self) k eq_refl Hk Hi).
    cbn [bind playback_speed_index set_key].
    set (self1 := set_playback_speed_index _ _).
    assert (Hi1 : 0 <= playback_speed_index self1 < 5)
      by (apply Z.mod_pos_bound; lia).
    destruct (IH self1 Hi1) as (self' & Hrun & Hidx & _ & Hspeed).
    exists self'. split; [exact Hrun | ].
    assert (Hidx' : playback_speed_index self'
                    = (playback_speed_index self + Z.of_nat (S n)) mod 5).
    { rewrite Hidx. subst self1.
      cbn [playback_speed_index set_playback_speed_index].
      rewrite Zplus_mod_idemp_l. f_equal. lia. }
    split; [exact Hidx' | split].
    + intros [= ->]. rewrite Hidx'.
      replace (playback_speed_index self + Z.of_nat 5)
        with (playback_speed_index self + 1 * 5) by lia.
      rewrite Z.mod_add by lia. apply Z.mod_small. exact Hi.
    + intros _. destruct n as [ | n].
      * cbn in Hrun. injection Hrun as <-. subst self1.
        cbn [playback_speed set_playback_speed_index set_playback_speed
             playback_speed_index set_key].
        replace (playback_speed_index self + Z.of_nat 1 - 1)
          with (playback_speed_index self) by lia.
        rewrite (Z.mod_small _ 5) by exact Hi.
        split; [reflexivity | ].
        destruct (index_speeds _ Hi) as [_ Hnz].
        assert (Hpos : 0 < nth (Z.to_nat (playback_speed_index self))
                             PLAYBACK_SPEEDS 0).
        { assert (Hc : playback_speed_index self = 0
                       \/ playback_speed_index self = 1
                       \/ playback_speed_index self = 2
                       \/ playback_speed_index self = 3
                       \/ playback_speed_index self = 4) by lia.
          destruct Hc as [-> | [-> | [-> | [-> | ->]]]]; reflexivity. }
        unfold direction. destruct (k =? ord_b); nia.
      * destruct (Hspeed ltac:(lia)) as [Hs Hpos].
        split; [ | exact Hpos]. rewrite Hs. subst self1.
        cbn [playback_speed_index set_playback_speed_index].
        do 3 f_equal.
        rewrite <- Zminus_mod_idemp_l, <- Zplus_mod_idemp_l, Z.mod_mod by lia.
        rewrite Zplus_mod_idemp_l, Zminus_mod_idemp_l. f_equal. lia.
Qed.

Lemma speed_cycle_witness :
  exists self',
    presses (repeat ord_b 5) (set_playback_speed_index 3 (init 0)) = Ok self'
    /\ playback_speed_index self' = 3
    /\ playback_speed self' = -64.
Proof.
  assert (Hi : 0 <= playback_speed_index (set_playback_speed_index 3 (init 0))
               < 5) by (cbn; lia).
  destruct (speed_cycle ord_b 5 (set_playback_speed_index 3 (init 0))
              (or_intror eq_refl) Hi)
    as (self' & Hrun & _ & Hback & Hspeed).
  exists self'. split; [exact Hrun | split; [exact (Hback eq_refl) | ]].
  destruct (Hspeed ltac:(lia)) as [Hs _]. exact Hs.
Defined.

(** X5. One pass of [play_movie] from a shown index within a positive
    maximum moves it by one in the direction of the speed and wraps at
    both ends: forward from the last index to 0, backward from 0 to the
    last index, never to a negative one. *)
Theorem play_step_wraps (pressed : Z) (self : TimeLapseCamera) :
  playback_speed self <> 0 ->
  0 <= img_shown_index self < img_max_index self ->
  exists self',
    play_movie pressed self = Ok self'
    /\ img_shown_index self'
       = (if playback_speed self >? 0
          then (if img_shown_index self =? img_max_index self - 1
                then 0 else img_shown_index self + 1)
          else (if img_shown_index self =? 0
                then img_max_index self - 1 else img_shown_index self - 1)).
Proof.
  intros Hspeed Hshown.
  destruct (play_movie_ok pressed self Hspeed) as (shown & Hrun & _ & Hn).
  eexists. split; [exact Hrun | ].
  cbn [img_shown_index set_key set_img_shown_index].
  rewrite Hn by lia. clear Hn Hrun.
  destruct (playback_speed self >? 0).
  - destruct (Z.eqb_spec (img_shown_index self) (img_max_index self - 1))
      as [He | He].
    + replace (img_shown_index self + 1) with (img_max_index self) by lia.
      apply Z.mod_same. lia.
    + apply Z.mod_small. lia.
  - destruct (Z.eqb_spec (img_shown_index self) 0) as [He | He].
    + rewrite He.
      replace (0 + -1) with ((img_max_index self - 1)
                             + (-1) * img_max_index self) by lia.
      rewrite Z.mod_add by lia. apply Z.mod_small. lia.
    + replace (img_shown_index self + -1) with (img_shown_index self - 1)
        by lia.
      apply Z.mod_small. lia.
Qed.

Lemma play_step_wraps_witness :
  exists self',
    play_movie (-1)
      (set_playback_speed (-16)
         (set_img_shown_index 0 (set_img_max_index 3 (init 0)))) = Ok self'
    /\ img_shown_index self' = 2.
Proof.
  apply (play_step_wraps (-1)
           (set_playback_speed (-16)
              (set_img_shown_index 0 (set_img_max_index 3 (init 0))))).
  - cbn. discriminate.
  - cbn. lia.
Defined.

Lemma plays_succ n self :
  plays (S n) self = (self' <- play_movie (-1) self ;; plays n self').
Proof. reflexivity. Qed.

(** X6. After [n >= 1] passes of [play_movie] without a key, with a
    non-zero maximum, the shown index is the start index moved [n] steps
    in the direction of the speed, modulo the maximum, wherever it started
    (also from the reset value 1 outside the bounds); so the display
    repeats with period [img_max_index]. *)
Theorem plays_closed_form (n : nat) (self : TimeLapseCamera) :
  playback_speed self <> 0 ->
  img_max_index self <> 0 ->
  (0 < n)%nat ->
  exists self',
    plays n self = Ok self'
    /\ img_shown_index self'
       = (img_shown_index self
          + Z.of_nat n * (if playback_speed self >? 0 then 1 else -1))
         mod img_max_index self
    /\ img_max_index self' = img_max_index self
    /\ playback_speed self' = playback_speed self.
Proof.
  intros Hspeed Hmax Hn. revert self Hspeed Hmax.
  induction n as [ | n IH]; [lia | ]. intros self Hspeed Hmax.
  rewrite plays_succ.
  destruct (play_movie_ok (-1) self Hspeed) as (shown & Hrun & _ & Hshown).
  specialize (Hshown Hmax). rewrite Hrun. cbn [bind].
  set (self1 := set_key _ _).
  destruct n as [ | n].
  - exists self1. split; [reflexivity | ].
    subst self1. cbn [img_shown_index img_max_index playback_speed set_key
                      set_img_shown_index].
    split; [ | split; reflexivity].
    rewrite Hshown. f_equal. lia.
  - assert (Hspeed1 : playback_speed self1 <> 0) by exact Hspeed.
    assert (Hmax1 : img_max_index self1 <> 0) by exact Hmax.
    destruct (IH ltac:(lia) self1 Hspeed1 Hmax1)
      as (self' & Hrun' & Hs & Hm & Hp).
    exists self'. split; [exact Hrun' | ].
    split; [ | split; [exact Hm | exact Hp]].
    rewrite Hs. subst self1.
    cbn [img_shown_index img_max_index playback_speed set_key
         set_img_shown_index].
    rewrite Hshown, Zplus_mod_idemp_l. f_equal. lia.
Qed.

Lemma plays_closed_form_witness :
  exists self',
    plays 3 (set_img_max_index 3 (init 0)) = Ok self'
    /\ img_shown_index self' = 1.
Proof.
  assert (Hspeed : playback_speed (set_img_max_index 3 (init 0)) <> 0)
    by (cbn; discriminate).
  assert (Hmax : img_max_index (set_img_max_index 3 (init 0)) <> 0)
    by (cbn; discriminate).
  destruct (plays_closed_form 3 (set_img_max_index 3 (init 0)) Hspeed Hmax
              ltac:(lia)) as (self' & Hrun & Hs & _).
  exists self'. split; [exact Hrun | exact Hs].
Defined.

(** ** The catalog *)

Lemma lookup_update_other {A : Type} (k k' : string) (v : A)
  (l : list (string * A)) :
  k <> k' -> lookup k' (update k v l) = lookup k' l.
Proof.
  intros Hne. induction l as [ | [k0 v0] l IH]; cbn.
  - destruct (String.eqb_spec k k'); [contradiction | reflexivity].
  - destruct (String.eqb_spec k0 k) as [-> | Hk0]; cbn.
    + destruct (String.eqb_spec k k'); [contradiction | reflexivity].
    + destruct (String.eqb k0 k'); [reflexivity | exact IH].
Qed.

Lemma listdir_project_count w project entries :
  listdir_project w project = Ok entries ->
  frame_count w project
  = Some (Z.of_nat (List.length (filter is_file entries))).
Proof.
  unfold listdir_project, frame_count, project_dir.
  destruct (projects_folder w) as [root | ]; [ | discriminate].
  destruct (lookup project root) as [[ | entries0] | ]; try discriminate.
  now intros [= ->].
Qed.

Lemma count_files_spec w projects_list :
  forall dict dict',
    count_files w projects_list dict = Ok dict' ->
    forall p,
      (In p projects_list ->
       lookup p dict' = frame_count w p /\ lookup p dict' <> None)
      /\ (~ In p projects_list -> lookup p dict' = lookup p dict).
Proof.
  induction projects_list as [ | project rest IH]; intros dict dict' H p.
  - cbn in H. injection H as <-. split; [intros [] | reflexivity].
  - cbn [count_files] in H. bind_inv H.
    destruct (IH _ _ H p) as [Hin Hout].
    destruct (in_dec string_dec p rest) as [Hrest | Hrest].
    + split; [intros _; exact (Hin Hrest) | ].
      intros Hn. elim Hn. now right.
    + split.
      * intros [<- | Hr]; [ | contradiction].
        rewrite (Hout Hrest), lookup_update_same.
        rewrite (listdir_project_count _ _ _ E). split; [reflexivity | ].
        discriminate.
      * intros Hn. rewrite (Hout Hrest). apply lookup_update_other.
        intros ->. apply Hn. now left.
Qed.

Lemma get_projects_counts self w self' w' :
  get_projects self w = Ok (self', w') ->
  projects self' <> []
  /\ forall p,
       In p (projects self') ->
       exists entries,
         project_dir w' p = Some entries
         /\ lookup p (projects_dict self')
            = Some (Z.of_nat (List.length (filter is_file entries))).
Proof.
  unfold get_projects. intros H. bind_inv H. bind_inv H.
  destruct a0 as [projects_list w1]. bind_inv H. injection H as <- <-.
  cbn [projects projects_dict set_projects set_projects_dict].
  split.
  - destruct (map fst (filter is_dir a)) as [ | p0 l0] eqn:Hl.
    + bind_inv E0. injection E0 as <- _. discriminate.
    + injection E0 as <- _. discriminate.
  - intros p Hin.
    destruct (count_files_spec _ _ _ _ E1 p) as [Hp _].
    destruct (Hp Hin) as [Hcount _].
    pose proof (count_files_directories _ _ _ _ E1) as Hdirs.
    rewrite Forall_forall in Hdirs. specialize (Hdirs p Hin).
    destruct (project_dir w1 p) as [entries | ] eqn:Hdir; [ | now elim Hdirs].
    exists entries. split; [reflexivity | ].
    rewrite Hcount. unfold frame_count. now rewrite Hdir.
Qed.

(** X7. When [get_projects] returns, the project list is not empty, every
    listed project has its directory, and [projects_dict] maps each listed
    project to the number of regular files in that directory;
    sub-directories are not counted. *)
Theorem scan_counts_files self w self' w' :
  get_projects self w = Ok (self', w') ->
  projects self' <> []
  /\ forall p,
       In p (projects self') ->
       exists entries,
         project_dir w' p = Some entries
         /\ lookup p (projects_dict self')
            = Some (Z.of_nat (List.length (filter is_file entries))).
Proof. exact (get_projects_counts self w self' w'). Qed.

Lemma scan_counts_files_witness :
  exists self' entries,
    get_projects (init 0) Sample.mixed_world = Ok (self', Sample.mixed_world)
    /\ projects self' = ["A"]
    /\ project_dir Sample.mixed_world "A" = Some entries
    /\ List.length entries = 3%nat
    /\ lookup "A" (projects_dict self') = Some 2.
Proof.
  assert (Hrun : get_projects (init 0) Sample.mixed_world
                 = Ok (set_projects ["A"]
                         (set_projects_dict [("A", 2)] (init 0)),
                       Sample.mixed_world)) by reflexivity.
  destruct (scan_counts_files _ _ _ _ Hrun) as [_ Hcount].
  destruct (Hcount "A" (or_introl eq_refl)) as (entries & Hdir & Hn).
  cbn in Hdir. injection Hdir as <-.
  do 2 eexists. split; [exact Hrun | split; [reflexivity | ]].
  split; [reflexivity | split; [reflexivity | exact Hn]].
Defined.

Lemma py_index_in_range {A : Type} (l : list A) (i : Z) :
  0 <= i < Z.of_nat (List.length l) ->
  exists x, Py.index l i = Ok x /\ nth_error l (Z.to_nat i) = Some x.
Proof.
  intros Hi. unfold Py.index.
  assert (Hb : (0 <=? i) && (i <? Z.of_nat (List.length l)) = true)
    by (apply andb_true_iff; split; [apply Z.leb_le | apply Z.ltb_lt]; lia).
  rewrite Hb.
  destruct (nth_error l (Z.to_nat i)) as [x | ] eqn:Hnth.
  - exists x. split; reflexivity.
  - apply nth_error_None in Hnth. lia.
Qed.

(** The state after a select key that moved the project index by [step] *)
Lemma select_step_ok step self :
  catalog_ok self ->
  exists project count,
    let i := (selected_project_index self + step)
             mod Z.of_nat (List.length (projects self)) in
    select_step step self
    = Ok (set_img_max_index count
            (set_img_shown_index 1
               (set_selected_project project
                  (set_selected_project_index i self))))
    /\ 0 <= i < Z.of_nat (List.length (projects self))
    /\ nth_error (projects self) (Z.to_nat i) = Some project
    /\ lookup project (projects_dict self) = Some count.
Proof.
  intros [Hne Hdict].
  assert (Hlen : 0 < Z.of_nat (List.length (projects self))).
  { destruct (projects self); [now elim Hne | cbn; lia]. }
  pose proof (Z.mod_pos_bound (selected_project_index self + step) _ Hlen)
    as Hi.
  destruct (py_index_in_range (projects self) _ Hi) as (project & Hidx & Hnth).
  pose proof (Hdict project (nth_error_In _ _ Hnth)) as Hcount.
  destruct (lookup project (projects_dict self)) as [count | ] eqn:Hl;
    [ | now elim Hcount].
  exists project, count. cbn zeta.
  split; [ | split; [exact Hi | split; [exact Hnth | exact Hl]]].
  unfold select_step, Py.mod_.
  assert (Hz : (Z.of_nat (List.length (projects self)) =? 0) = false)
    by (apply Z.eqb_neq; lia).
  rewrite Hz. cbn [bind projects selected_project_index
                   set_selected_project_index].
  rewrite Hidx. cbn [bind selected_project projects_dict set_img_shown_index
                     set_selected_project set_selected_project_index].
  rewrite Hl. reflexivity.
Qed.

(** X8. With a non-empty catalog that has a count for every project,
    neither select key raises; select-next followed by select-previous
    brings the project index back to where it was (for an index within the
    list) and selects the project at that index, with the shown index reset
    to 1 and the maximum set to that project's cached count. *)
Theorem select_next_previous (self : TimeLapseCamera) :
  catalog_ok self ->
  0 <= selected_project_index self < Z.of_nat (List.length (projects self)) ->
  exists self1 self2 project count,
    select_step 1 self = Ok self1
    /\ select_step (-1) self1 = Ok self2
    /\ selected_project_index self2 = selected_project_index self
    /\ nth_error (projects self) (Z.to_nat (selected_project_index self))
       = Some project
    /\ selected_project self2 = project
    /\ lookup project (projects_dict self) = Some count
    /\ img_max_index self2 = count
    /\ img_shown_index self2 = 1.
Proof.
  intros Hcat Hi.
  destruct (select_step_ok 1 self Hcat) as (p1 & c1 & Hrun1 & Hi1 & _ & _).
  cbn zeta in Hrun1, Hi1.
  set (self1 := set_img_max_index c1 _) in Hrun1.
  assert (Hcat1 : catalog_ok self1) by exact Hcat.
  destruct (select_step_ok (-1) self1 Hcat1)
    as (p2 & c2 & Hrun2 & _ & Hnth2 & Hl2).
  cbn zeta in Hrun2, Hnth2.
  assert (Hback :
            (selected_project_index self1 + -1)
            mod Z.of_nat (List.length (projects self1))
            = selected_project_index self).
  { subst self1.
    cbn [selected_project_index projects set_img_max_index
         set_img_shown_index set_selected_project
         set_selected_project_index].
    rewrite Zplus_mod_idemp_l.
    replace (selected_project_index self + 1 + -1)
      with (selected_project_index self) by lia.
    apply Z.mod_small. exact Hi. }
  rewrite Hback in Hrun2, Hnth2.
  do 2 eexists. exists p2, c2.
  split; [exact Hrun1 | split; [exact Hrun2 | ]].
  cbn [selected_project_index selected_project img_max_index img_shown_index
       set_img_max_index set_img_shown_index set_selected_project
       set_selected_project_index].
  split; [reflexivity | split; [exact Hnth2 | split; [reflexivity | ]]].
  split; [exact Hl2 | split; reflexivity].
Qed.

Lemma select_next_previous_witness :
  exists self1 self2,
    select_step 1 Example.browsing = Ok self1
    /\ selected_project self1 = "B"
    /\ select_step (-1) self1 = Ok self2
    /\ selected_project self2 = "A"
    /\ img_max_index self2 = 10.
Proof.
  assert (Hcat : catalog_ok Example.browsing).
  { split; [discriminate | ].
    intros p [<- | [<- | []]]; cbn; discriminate. }
  assert (Hi : 0 <= selected_project_index Example.browsing
               < Z.of_nat (List.length (projects Example.browsing)))
    by (cbn; lia).
  destruct (select_next_previous Example.browsing Hcat Hi)
    as (self1 & self2 & project & count & H1 & H2 & _ & Hnth & Hp & Hl & Hm & _).
  exists self1, self2.
  cbn in Hnth. injection Hnth as <-. cbn in Hl. injection Hl as <-.
  cbn in H1. injection H1 as <-.
  split; [reflexivity | split; [reflexivity | ]].
  split; [exact H2 | split; [exact Hp | exact Hm]].
Defined.

(** ** The loop after start-up *)

Lemma speed_ok_nonzero self : speed_ok self -> playback_speed self <> 0.
Proof.
  intros [Hin _] H0. rewrite H0 in Hin. cbn in Hin.
  repeat (destruct Hin as [Hin | Hin]; [discriminate | ]). exact Hin.
Qed.

Lemma table_speed_ok (i k : Z) :
  0 <= i < 5 ->
  In (Z.abs (nth (Z.to_nat i) PLAYBACK_SPEEDS 0 * direction k))
    (DEFAULT_PLAYBACK_SPEED :: PLAYBACK_SPEEDS).
Proof.
  intros Hi.
  assert (Hc : i = 0 \/ i = 1 \/ i = 2 \/ i = 3 \/ i = 4) by lia.
  unfold direction.
  destruct Hc as [-> | [-> | [-> | [-> | ->]]]]; destruct (k =? ord_b); cbn;
    tauto.
Qed.

Lemma select_step_catalog step self self' :
  select_step step self = Ok self' ->
  same_catalog self self' /\ playback_speed self' = playback_speed self
  /\ playback_speed_index self' = playback_speed_index self.
Proof.
  unfold select_step. intros H.
  bind_inv H. bind_inv H. bind_inv H.
  injection H as <-. repeat split.
Qed.

Lemma handle_key_press_catalog self continue self' :
  handle_key_press self = Ok (continue, self') -> same_catalog self self'.
Proof.
  unfold handle_key_press. intros H.
  destruct (key self) as [k | ]; [ | injection H as <- <-; now split].
  destruct ((k =? ord_f) || (k =? ord_b)).
  { bind_inv H. bind_inv H. injection H as <- <-. now split. }
  destruct (k =? ord_p).
  { destruct (playback_speed self >? 0); injection H as <- <-; now split. }
  destruct (k =? ord_s).
  { bind_inv H. injection H as <- <-.
    exact (proj1 (select_step_catalog _ _ _ E)). }
  destruct (k =? ord_a).
  { bind_inv H. injection H as <- <-.
    exact (proj1 (select_step_catalog _ _ _ E)). }
  destruct (k =? ord_q); injection H as <- <-; now split.
Qed.

Lemma handle_key_press_ready self :
  loop_ready self ->
  exists continue self',
    handle_key_press self = Ok (continue, self') /\ loop_ready self'.
Proof.
  intros Hready. pose proof Hready as [[Hspeed Hi] Hcat].
  change (Z.of_nat (List.length PLAYBACK_SPEEDS)) with 5 in Hi.
  unfold handle_key_press.
  destruct (key self) as [k | ] eqn:Hkey; [ | now exists true, self].
  destruct ((k =? ord_f) || (k =? ord_b)) eqn:Hfb.
  { destruct (index_speeds _ Hi) as [-> _]. cbn [bind].
    unfold Py.mod_. cbn [bind Z.eqb Z.of_nat List.length PLAYBACK_SPEEDS].
    cbn [playback_speed_index set_playback_speed].
    change (Z.of_nat 5 =? 0) with false. cbn [bind].
    do 2 eexists. split; [reflexivity | ].
    split; [ | exact Hcat]. split.
    - cbn [playback_speed set_playback_speed_index set_playback_speed].
      fold (direction k). now apply table_speed_ok.
    - cbn [playback_speed_index set_playback_speed_index].
      change (Z.of_nat (List.length PLAYBACK_SPEEDS)) with 5.
      apply Z.mod_pos_bound. reflexivity. }
  destruct (k =? ord_p).
  { destruct (playback_speed self >? 0); do 2 eexists;
      (split; [reflexivity | ]); (split; [ | exact Hcat]);
      (split; [cbn; tauto | exact Hi]). }
  destruct (k =? ord_s).
  { destruct (select_step_ok 1 self Hcat) as (p & c & Hrun & _).
    cbn zeta in Hrun. rewrite Hrun. cbn [bind].
    do 2 eexists. split; [reflexivity | ].
    split; [split; [exact Hspeed | exact Hi] | exact Hcat]. }
  destruct (k =? ord_a).
  { destruct (select_step_ok (-1) self Hcat) as (p & c & Hrun & _).
    cbn zeta in Hrun. rewrite Hrun. cbn [bind].
    do 2 eexists. split; [reflexivity | ].
    split; [split; [exact Hspeed | exact Hi] | exact Hcat]. }
  destruct (k =? ord_q); do 2 eexists; (split; [reflexivity | exact Hready]).
Qed.

Lemma play_movie_catalog pressed self self' :
  play_movie pressed self = Ok self' ->
  same_catalog self self' /\ playback_speed_index self' = playback_speed_index self.
Proof.
  unfold play_movie. intros H. bind_inv H. bind_inv H.
  injection H as <-. repeat split.
Qed.

Lemma same_catalog_trans a b c :
  same_catalog a b -> same_catalog b c -> same_catalog a c.
Proof. unfold same_catalog. intros [-> ->] H. exact H. Qed.

Section Loop.

Context {float_text : FloatText}.

(** With a start time that is a number, as every start time here is,
    [capture_image] returns: either nothing changed, or the frame was
    stored and the state is the captured one. *)
Lemma capture_image_cases read t_stamp t_saved self w :
  (capture_image read t_stamp t_saved self w = Ok (self, w)
   /\ (cap self = false \/ read = None))
  \/ exists fr,
      read = Some fr /\ cap self = true
      /\ capture_image read t_stamp t_saved self w
         = Ok (captured t_saved self,
               write_log_file (captured t_saved self)
                 (imwrite (active_project self)
                    (frame_name (img_capture_index self))
                    (stamped t_stamp fr self) w)).
Proof.
  destruct (cap self) eqn:Hcap.
  - destruct read as [fr | ].
    + right. exists fr. split; [reflexivity | split; [reflexivity | ]].
      now apply capture_image_success.
    + left. unfold capture_image. rewrite Hcap. auto.
  - left. unfold capture_image. rewrite Hcap. auto.
Qed.

Lemma captured_frame t_saved self :
  same_catalog self (captured t_saved self)
  /\ playback_speed (captured t_saved self) = playback_speed self
  /\ playback_speed_index (captured t_saved self) = playback_speed_index self
  /\ key (captured t_saved self) = key self
  /\ cap (captured t_saved self) = cap self
  /\ active_project (captured t_saved self) = active_project self
  /\ program_start_time (captured t_saved self) = program_start_time self
  /\ img_capture_index (captured t_saved self) = img_capture_index self + 1
  /\ last_picture_time (captured t_saved self) = t_saved.
Proof.
  unfold captured, same_catalog.
  cbn [selected_project active_project set_last_picture_time].
  destruct (String.eqb (selected_project self) (active_project self));
    repeat split.
Qed.

Lemma capture_image_ready read t_stamp t_saved self w :
  loop_ready self ->
  exists self' w',
    capture_image read t_stamp t_saved self w = Ok (self', w')
    /\ loop_ready self' /\ same_catalog self self'.
Proof.
  intros Hready.
  destruct (capture_image_cases read t_stamp t_saved self w)
    as [[Hrun _] | (fr & _ & _ & Hrun)]; rewrite Hrun; do 2 eexists;
    (split; [reflexivity | ]).
  - split; [exact Hready | now split].
  - destruct (captured_frame t_saved self) as ([Hp Hd] & Hs & Hi & _).
    split; [ | now split].
    destruct Hready as [[Hspeed Hidx] [Hne Hdict]].
    unfold loop_ready, speed_ok, catalog_ok. rewrite Hp, Hd, Hs, Hi. auto.
Qed.

Lemma tick_ready inp self w :
  loop_ready self ->
  (tick inp self w = Ok None)
  \/ exists self' w',
      tick inp self w = Ok (Some (self', w'))
      /\ loop_ready self' /\ same_catalog self self'.
Proof.
  intros Hready.
  destruct (handle_key_press_ready self Hready)
    as (continue & self1 & Hkey & Hready1).
  pose proof (handle_key_press_catalog _ _ _ Hkey) as Hcat1.
  unfold tick. rewrite Hkey. cbn [bind].
  destruct continue; cbn [negb]; [right | now left].
  assert (Hcapture :
            exists self2 w2,
              (if capture_due (t_loop inp) self1
               then capture_image (camera inp) (t_stamp inp) (t_saved inp)
                      self1 w
               else Ok (self1, w)) = Ok (self2, w2)
              /\ loop_ready self2 /\ same_catalog self1 self2).
  { destruct (capture_due (t_loop inp) self1).
    - now apply capture_image_ready.
    - exists self1, w. split; [reflexivity | split; [exact Hready1 | ]].
      now split. }
  destruct Hcapture as (self2 & w2 & Hcap & Hready2 & Hcat2).
  rewrite Hcap. cbn [bind].
  pose proof (speed_ok_nonzero self2 (proj1 Hready2)) as Hnz.
  destruct (play_movie_ok (pressed inp) self2 Hnz) as (shown & Hplay & _).
  rewrite Hplay. cbn [bind]. do 2 eexists. split; [reflexivity | ].
  split.
  - destruct Hready2 as [Hs Hc]. split; [exact Hs | exact Hc].
  - apply (same_catalog_trans _ _ _ Hcat1).
    apply (same_catalog_trans _ _ _ Hcat2). now split.
Qed.

Lemma main_loop_ready inputs :
  forall self w,
    loop_ready self ->
    exists self' w',
      main_loop inputs self w = Ok (self', w')
      /\ loop_ready self' /\ same_catalog self self'.
Proof.
  induction inputs as [ | inp rest IH]; intros self w Hready.
  - exists self, w. split; [reflexivity | split; [exact Hready | now split]].
  - cbn [main_loop].
    destruct (tick_ready inp self w Hready)
      as [Htick | (self1 & w1 & Htick & Hready1 & Hcat1)];
      rewrite Htick; cbn [bind].
    + exists self, w.
      split; [reflexivity | split; [exact Hready | now split]].
    + destruct (IH self1 w1 Hready1) as (self' & w' & Hrun & Hready' & Hcat').
      exists self', w'. split; [exact Hrun | split; [exact Hready' | ]].
      exact (same_catalog_trans _ _ _ Hcat1 Hcat').
Qed.

Lemma read_log_file_catalog self w self' :
  read_log_file self w = Ok self' ->
  same_catalog self self' /\ last_picture_time self' = last_picture_time self
  /\ cap self' = cap self.
Proof.
  unfold read_log_file. intros H.
  destruct (log_txt w); [ | injection H as <-; repeat split].
  destruct (Py.readline (Py.universal_newlines s)) as [line1 r1].
  destruct (Py.readline r1) as [line2 r2].
  bind_inv H. destruct (Py.readline r2) as [line3 r3].
  bind_inv H. injection H as <-. repeat split.
Qed.

Lemma select_project_catalog now self w self' w' :
  select_project now self w = Ok (self', w') ->
  same_catalog self self' /\ last_picture_time self' = last_picture_time self
  /\ cap self' = cap self
  /\ projects_folder w' = projects_folder w.
Proof.
  unfold select_project. intros H. bind_inv H.
  destruct a as [project | ].
  - injection H as <- <-. repeat split.
  - destruct (Py.in_ (active_project self) (projects self));
      injection H as <- <-; repeat split.
Qed.

Lemma setup_project_ready c t0 now w self w0 :
  setup_project now (set_cap c (init t0)) w = Ok (self, w0) ->
  loop_ready self.
Proof.
  intros Hsetup.
  destruct (setup_project_playback _ _ _ _ _ Hsetup) as (_ & _ & Hs & Hi).
  cbn in Hs, Hi.
  unfold setup_project in Hsetup. bind_inv Hsetup. bind_inv Hsetup.
  destruct a0 as [self2 w2]. bind_inv Hsetup. destruct a0 as [self3 w3].
  bind_inv Hsetup. injection Hsetup as <- <-.
  destruct (get_projects_counts _ _ _ _ E0) as [Hne Hcount].
  destruct (select_project_catalog _ _ _ _ _ E1) as ([Hp Hd] & _).
  split.
  - split.
    + cbn [playback_speed set_selected_project_index set_selected_project]
        in Hs |- *. rewrite Hs. cbn. tauto.
    + cbn [playback_speed_index set_selected_project_index
           set_selected_project] in Hi |- *. rewrite Hi. cbn. lia.
  - unfold catalog_ok.
    cbn [projects projects_dict set_selected_project_index
         set_selected_project].
    rewrite Hp, Hd. split; [exact Hne | ].
    intros p Hin. destruct (Hcount p Hin) as (entries & _ & ->).
    discriminate.
Qed.

(** X9. After [setup_project] has returned and any passes of the main loop
    have completed, the speed is 1 or a table entry in either direction
    (never 0, the divisor of the wait), the speed index is an index of the
    table, the catalog is not empty and holds a count for every project;
    so [handle_key_press] returns for every key: neither its modulo nor
    its table, list and dict look-ups fail.  Nothing is said of a pass in
    which [capture_image] or [update_display] raises. *)
Theorem completed_passes_stay_ready c t0 now w self w0 inputs self' w' :
  setup_project now (set_cap c (init t0)) w = Ok (self, w0) ->
  main_loop inputs self w0 = Ok (self', w') ->
  loop_ready self'
  /\ playback_speed self' <> 0
  /\ forall k, exists continue self'',
       handle_key_press (set_key k self') = Ok (continue, self'').
Proof.
  intros Hsetup Hrun.
  pose proof (setup_project_ready _ _ _ _ _ _ Hsetup) as Hready.
  destruct (main_loop_ready inputs self w0 Hready)
    as (self1 & w1 & Hrun1 & Hready1 & _).
  rewrite Hrun1 in Hrun. injection Hrun as <- <-.
  split; [exact Hready1 | ].
  split; [exact (speed_ok_nonzero _ (proj1 Hready1)) | ].
  intros k.
  assert (Hk : loop_ready (set_key k self1)).
  { destruct Hready1 as [[Hs Hi] [Hne Hd]].
    split; [split; [exact Hs | exact Hi] | split; [exact Hne | exact Hd]]. }
  destruct (handle_key_press_ready _ Hk) as (continue & self'' & Hkey & _).
  exists continue, self''. exact Hkey.
Qed.

(** X10. The main loop never changes the project list or the cached
    counts: whatever is captured while it runs, a select key sets the
    maximum index to the count taken by [get_projects] at start-up. *)
Theorem catalog_is_a_snapshot inputs self w self' w' :
  loop_ready self ->
  main_loop inputs self w = Ok (self', w') ->
  projects self' = projects self
  /\ projects_dict self' = projects_dict self.
Proof.
  intros Hready Hrun.
  destruct (main_loop_ready inputs self w Hready)
    as (self1 & w1 & Hrun1 & _ & Hcat).
  rewrite Hrun1 in Hrun. injection Hrun as <- <-. exact Hcat.
Qed.

End Loop.

Lemma completed_passes_stay_ready_witness :
  exists self' w',
    main_loop Sample.busy_ticks Example.resumed Example.two_frames_world
    = Ok (self', w')
    /\ playback_speed self' <> 0
    /\ exists continue self'',
         handle_key_press (set_key (Some ord_s) self')
         = Ok (continue, self'').
Proof.
  destruct (main_loop Sample.busy_ticks Example.resumed
              Example.two_frames_world) as [[self' w'] | e] eqn:Hrun;
    [ | vm_compute in Hrun; discriminate].
  exists self', w'. split; [reflexivity | ].
  assert (Hsetup :
            setup_project 200 (set_cap true (init 150))
              Example.two_frames_world
            = Ok (Example.resumed, Example.two_frames_world))
    by reflexivity.
  destruct (@completed_passes_stay_ready decimal_text true 150 200
              Example.two_frames_world Example.resumed
              Example.two_frames_world Sample.busy_ticks self' w'
              Hsetup Hrun) as (_ & Hspeed & Hkeys).
  split; [exact Hspeed | exact (Hkeys (Some ord_s))].
Defined.

Lemma resumed_ready : loop_ready Example.resumed.
Proof.
  split; [split; [cbn; tauto | cbn; lia] | ].
  split; [discriminate | ].
  intros p [<- | []]. cbn. discriminate.
Qed.

Lemma catalog_is_a_snapshot_witness :
  exists self' w',
    main_loop Sample.busy_ticks Example.resumed Example.two_frames_world
    = Ok (self', w')
    /\ frame_count w' "A" = Some 4
    /\ projects_dict self' = [("A", 2)]
    /\ img_max_index self' = 2.
Proof.
  destruct (main_loop Sample.busy_ticks Example.resumed
              Example.two_frames_world) as [[self' w'] | e] eqn:Hrun.
  - exists self', w'.
    pose proof (proj2 (@catalog_is_a_snapshot decimal_text _ _ _ _ _
                         resumed_ready Hrun)) as Hdict.
    vm_compute in Hrun. injection Hrun as <- <-.
    split; [reflexivity | split; [reflexivity | ]].
    split; [exact Hdict | reflexivity].
  - vm_compute in Hrun. discriminate Hrun.
Defined.

(** ** What a pass of the loop writes *)

Section Writes.

Context {float_text : FloatText}.

Lemma same_session_log self self' :
  same_session self self' -> log_record self' = log_record self.
Proof.
  intros (_ & Ha & Hi & Hs & _). unfold log_record. now rewrite Ha, Hi, Hs.
Qed.

(** The three steps of a pass that went on to the wait *)
Lemma tick_inv inp self w self' w' :
  tick inp self w = Ok (Some (self', w')) ->
  exists self1 self2,
    handle_key_press self = Ok (true, self1)
    /\ play_movie (pressed inp) self2 = Ok self'
    /\ ((self2 = self1 /\ w' = w)
        \/ exists fr,
            camera inp = Some fr /\ cap self1 = true
            /\ capture_due (t_loop inp) self1 = true
            /\ self2 = captured (t_saved inp) self1
            /\ w' = write_log_file self2
                      (imwrite (active_project self1)
                         (frame_name (img_capture_index self1))
                         (stamped (t_stamp inp) fr self1) w)).
Proof.
  unfold tick. intros H. bind_inv H. destruct a as [continue self1].
  destruct continue; cbn [negb] in H; [ | discriminate].
  bind_inv H. destruct a as [self2 w2]. bind_inv H.
  injection H as <- <-. exists self1, self2.
  split; [reflexivity | split; [exact E1 | ]].
  destruct (capture_due (t_loop inp) self1) eqn:Hdue.
  - destruct (capture_image_cases (camera inp) (t_stamp inp) (t_saved inp)
                self1 w) as [[Hrun _] | (fr & Hcam & Hcap & Hrun)];
      rewrite Hrun in E0; injection E0 as <- <-.
    + left. now split.
    + right. exists fr. repeat split; assumption.
  - injection E0 as <- <-. left. now split.
Qed.

(** X11. If the record in [log.txt] is the one written for the current
    state, it still is after any run of the main loop: every change of the
    active project, capture index or start time that the loop makes is
    followed by [write_log_file], and nothing else writes the record. *)
Theorem log_follows_state inputs :
  forall self w self' w',
    log_follows self w ->
    main_loop inputs self w = Ok (self', w') ->
    log_follows self' w'.
Proof.
  induction inputs as [ | inp rest IH]; intros self w self' w' Hlog Hrun.
  - cbn in Hrun. injection Hrun as <- <-. exact Hlog.
  - cbn [main_loop] in Hrun. bind_inv Hrun.
    destruct a as [[self1 w1] | ]; [ | injection Hrun as <- <-; exact Hlog].
    apply (IH self1 w1); [ | exact Hrun].
    destruct (tick_inv _ _ _ _ _ E)
      as (s1 & s2 & Hkey & Hplay & [[-> ->] | (fr & _ & _ & _ & -> & ->)]).
    + unfold log_follows.
      rewrite (same_session_log _ _ (play_movie_session _ _ _ Hplay)).
      rewrite (same_session_log _ _ (handle_key_press_session _ _ _ Hkey)).
      exact Hlog.
    + unfold log_follows.
      rewrite (same_session_log _ _ (play_movie_session _ _ _ Hplay)).
      reflexivity.
Qed.

(** X12. Handling keys and playing back write nothing: in a run of the
    main loop in which the camera never gives a frame, whatever keys
    arrive, the files and [log.txt] are untouched and the active project,
    capture index, start time and time of the last picture stay as they
    were. *)
Theorem playback_never_writes inputs :
  forall self w self' w',
    no_frames inputs ->
    main_loop inputs self w = Ok (self', w') ->
    w' = w /\ same_session self self'.
Proof.
  induction inputs as [ | inp rest IH]; intros self w self' w' Hnone Hrun.
  - cbn in Hrun. injection Hrun as <- <-.
    split; [reflexivity | apply same_session_refl].
  - cbn [main_loop] in Hrun. bind_inv Hrun.
    destruct a as [[self1 w1] | ].
    2: { injection Hrun as <- <-.
         split; [reflexivity | apply same_session_refl]. }
    inversion Hnone as [ | ? ? Hcam Hrest]; subst.
    destruct (tick_inv _ _ _ _ _ E)
      as (s1 & s2 & Hkey & Hplay & [[-> ->] | (fr & Hfr & _)]).
    + destruct (IH _ _ _ _ Hrest Hrun) as [-> Hs].
      split; [reflexivity | ].
      apply (same_session_trans _ _ _ (handle_key_press_session _ _ _ Hkey)).
      apply (same_session_trans _ _ _ (play_movie_session _ _ _ Hplay)).
      exact Hs.
    + rewrite Hcam in Hfr. discriminate.
Qed.

(** X13. After a capture that succeeded and set [last_picture_time] to
    [t_saved], a pass of the loop that starts less than [CAPTURE_INTERVAL]
    later captures nothing even if the camera has a frame: files, record
    and capture index stay as they are. *)
Theorem no_capture_within_interval inp fr t_stamp t_saved self w self1 w1
  self2 w2 :
  cap self = true ->
  capture_image (Some fr) t_stamp t_saved self w = Ok (self1, w1) ->
  (t_loop inp < t_saved + CAPTURE_INTERVAL)%Q ->
  tick inp self1 w1 = Ok (Some (self2, w2)) ->
  w2 = w1 /\ same_session self1 self2.
Proof.
  intros Hcap Hcapture Hearly Htick.
  rewrite (capture_image_success _ _ _ _ _ Hcap) in Hcapture.
  injection Hcapture as <- <-.
  destruct (tick_inv _ _ _ _ _ Htick)
    as (s1 & s2 & Hkey & Hplay & [[-> ->] | (fr' & _ & _ & Hdue & _)]).
  - split; [reflexivity | ].
    apply (same_session_trans _ _ _ (handle_key_press_session _ _ _ Hkey)).
    exact (play_movie_session _ _ _ Hplay).
  - exfalso.
    destruct (handle_key_press_session _ _ _ Hkey) as (_ & _ & _ & _ & Hlast).
    unfold capture_due in Hdue. rewrite Hlast in Hdue.
    destruct (captured_frame t_saved self)
      as (_ & _ & _ & _ & _ & _ & _ & _ & Hsaved).
    rewrite Hsaved in Hdue. apply Qle_bool_iff in Hdue. unfold CAPTURE_INTERVAL in *. lra.
Qed.

Lemma get_projects_session self w self' w' :
  get_projects self w = Ok (self', w') ->
  last_picture_time self' = last_picture_time self
  /\ cap self' = cap self
  /\ active_project self' = active_project self.
Proof.
  unfold get_projects. intros H. bind_inv H. bind_inv H.
  destruct a0 as [projects_list w1]. bind_inv H.
  injection H as <- <-. repeat split.
Qed.

(** X14. [setup_project] never moves [last_picture_time], which
    [__init__] puts one capture interval before the time of construction:
    at every reading of the clock from the construction on, the capture is
    due, so the first pass of the loop already calls [capture_image]. *)
Theorem first_pass_captures c t0 now w self w' t :
  setup_project now (set_cap c (init t0)) w = Ok (self, w') ->
  (t0 <= t)%Q ->
  capture_due t self = true /\ cap self = c.
Proof.
  intros Hsetup Ht.
  unfold setup_project in Hsetup. bind_inv Hsetup. bind_inv Hsetup.
  destruct a0 as [self2 w2]. bind_inv Hsetup. destruct a0 as [self3 w3].
  bind_inv Hsetup. injection Hsetup as <- <-.
  destruct (read_log_file_catalog _ _ _ E) as (_ & Hl1 & Hc1).
  destruct (get_projects_session _ _ _ _ E0) as (Hl2 & Hc2 & _).
  destruct (select_project_catalog _ _ _ _ _ E1) as (_ & Hl3 & Hc3 & _).
  split.
  - unfold capture_due.
    cbn [last_picture_time set_selected_project_index set_selected_project].
    rewrite Hl3, Hl2, Hl1. cbn [last_picture_time set_cap init].
    apply Qle_bool_iff. unfold CAPTURE_INTERVAL. lra.
  - cbn [cap set_selected_project_index set_selected_project].
    rewrite Hc3, Hc2, Hc1. reflexivity.
Qed.

End Writes.

Lemma log_follows_state_witness :
  log_follows Example.resumed Example.two_frames_world
  /\ exists self' w',
       main_loop Sample.busy_ticks Example.resumed Example.two_frames_world
       = Ok (self', w')
       /\ img_capture_index self' = 4
       /\ log_txt w' = Some ("A" ++ Py.nl ++ "4" ++ Py.nl ++ "100.5").
Proof.
  assert (Hlog : log_follows Example.resumed Example.two_frames_world)
    by reflexivity.
  split; [exact Hlog | ].
  destruct (main_loop Sample.busy_ticks Example.resumed
              Example.two_frames_world) as [[self' w'] | e] eqn:Hrun.
  - exists self', w'.
    pose proof (@log_follows_state decimal_text _ _ _ _ _ Hlog Hrun) as Hend.
    unfold log_follows in Hend.
    vm_compute in Hrun. injection Hrun as <- <-.
    split; [reflexivity | split; [reflexivity | exact Hend]].
  - vm_compute in Hrun. discriminate Hrun.
Defined.

Lemma playback_never_writes_witness :
  no_frames Sample.keys_only
  /\ exists self',
       main_loop Sample.keys_only Example.resumed Example.two_frames_world
       = Ok (self', Example.two_frames_world)
       /\ same_session Example.resumed self'.
Proof.
  assert (Hnone : no_frames Sample.keys_only)
    by (repeat constructor).
  split; [exact Hnone | ].
  destruct (main_loop Sample.keys_only Example.resumed
              Example.two_frames_world) as [[self' w'] | e] eqn:Hrun.
  - destruct (@playback_never_writes decimal_text _ _ _ _ _ Hnone Hrun)
      as [-> Hsame].
    exists self'. split; [reflexivity | exact Hsame].
  - vm_compute in Hrun. discriminate Hrun.
Defined.

Lemma no_capture_within_interval_witness :
  exists self1 w1 self2,
    capture_image (Some (mkFrame 2 [0; 0; 0])) 103 104 Example.recording
      Example.two_frames_world = Ok (self1, w1)
    /\ tick Sample.early_tick self1 w1 = Ok (Some (self2, w1))
    /\ img_capture_index self2 = 3.
Proof.
  destruct (capture_image (Some (mkFrame 2 [0; 0; 0])) 103 104
              Example.recording Example.two_frames_world)
    as [[self1 w1] | e] eqn:Hcapture; [ | vm_compute in Hcapture; discriminate].
  destruct (tick Sample.early_tick self1 w1)
    as [[[self2 w2] | ] | e] eqn:Htick.
  - assert (Hearly : (t_loop Sample.early_tick < 104 + CAPTURE_INTERVAL)%Q)
      by reflexivity.
    destruct (@no_capture_within_interval decimal_text Sample.early_tick
                (mkFrame 2 [0; 0; 0]) 103 104 Example.recording
                Example.two_frames_world self1 w1 self2 w2
                eq_refl Hcapture Hearly Htick) as [-> (_ & _ & Hi & _)].
    exists self1, w1, self2. split; [reflexivity | split; [exact Htick | ]].
    rewrite Hi. vm_compute in Hcapture. injection Hcapture as <- _.
    reflexivity.
  - vm_compute in Hcapture. injection Hcapture as <- <-.
    vm_compute in Htick. discriminate Htick.
  - vm_compute in Hcapture. injection Hcapture as <- <-.
    vm_compute in Htick. discriminate Htick.
Defined.

Lemma first_pass_captures_witness :
  setup_project 200 (set_cap true (init 150)) Example.two_frames_world
  = Ok (Example.resumed, Example.two_frames_world)
  /\ capture_due 150 Example.resumed = true
  /\ cap Example.resumed = true.
Proof.
  assert (Hsetup :
            setup_project 200 (set_cap true (init 150))
              Example.two_frames_world
            = Ok (Example.resumed, Example.two_frames_world))
    by reflexivity.
  split; [exact Hsetup | ].
  apply (@first_pass_captures decimal_text true 150 200
           Example.two_frames_world Example.resumed Example.two_frames_world
           150 Hsetup).
  vm_compute. discriminate.
Defined.

(** ** Start-up *)

Lemma list_index_spec x l :
  forall i,
    Py.list_index x l = Ok i ->
    0 <= i < Z.of_nat (List.length l)
    /\ nth_error l (Z.to_nat i) = Some x.
Proof.
  induction l as [ | y l IH]; intros i H; cbn in H; [discriminate | ].
  destruct (String.eqb_spec y x) as [-> | Hne].
  - injection H as <-. cbn [List.length]. split; [lia | reflexivity].
  - bind_inv H. injection H as <-. destruct (IH _ eq_refl) as [Hi Hnth].
    cbn [List.length]. split; [lia | ].
    replace (Z.to_nat (a + 1)) with (S (Z.to_nat a)) by lia. exact Hnth.
Qed.

Lemma list_index_missing x l :
  ~ In x l -> Py.list_index x l = Raise ValueError.
Proof.
  induction l as [ | y l IH]; intros Hn; cbn; [reflexivity | ].
  destruct (String.eqb_spec y x) as [-> | Hne].
  - elim Hn. now left.
  - rewrite IH; [reflexivity | ]. intros H. apply Hn. now right.
Qed.

Lemma in_missing x l : ~ In x l -> Py.in_ x l = false.
Proof.
  induction l as [ | y l IH]; intros Hn; cbn; [reflexivity | ].
  destruct (String.eqb_spec x y) as [-> | Hne].
  - elim Hn. now left.
  - apply IH. intros H. apply Hn. now right.
Qed.

Lemma project_dir_same_folder w w' project :
  projects_folder w' = projects_folder w ->
  project_dir w' project = project_dir w project.
Proof. unfold project_dir. now intros ->. Qed.

Lemma count_files_total w projects_list :
  Forall (fun p => project_dir w p <> None) projects_list ->
  forall dict, exists dict', count_files w projects_list dict = Ok dict'.
Proof.
  induction 1 as [ | project rest Hdir _ IH]; intros dict.
  - exists dict. reflexivity.
  - cbn [count_files].
    assert (Hlist : exists entries, listdir_project w project = Ok entries).
    { unfold listdir_project. unfold project_dir in Hdir.
      destruct (projects_folder w) as [root | ]; [ | now elim Hdir].
      destruct (lookup project root) as [[ | entries] | ];
        try (now elim Hdir). now exists entries. }
    destruct Hlist as [entries ->]. cbn [bind]. apply IH.
Qed.

Lemma find_all_false {A : Type} (f : A -> bool) (l : list A) :
  (forall x, In x l -> f x = false) -> find f l = None.
Proof.
  induction l as [ | y l IH]; intros H; cbn; [reflexivity | ].
  rewrite (H y) by now left. apply IH. intros x Hx. apply H. now right.
Qed.

Section StartupOutcome.

Context {float_text : FloatText}.

(** X15. When [setup_project] returns, from whatever state, the selected
    project is the active project, the active project is in the project
    list at the position [selected_project_index], and its directory
    exists, so that captures have a place to go. *)
Theorem startup_selects_active now self0 w self w' :
  setup_project now self0 w = Ok (self, w') ->
  selected_project self = active_project self
  /\ In (active_project self) (projects self)
  /\ Py.index (projects self) (selected_project_index self)
     = Ok (active_project self)
  /\ project_dir w' (active_project self) <> None.
Proof.
  unfold setup_project. intros H. bind_inv H. bind_inv H.
  destruct a0 as [self2 w2]. bind_inv H. destruct a0 as [self3 w3].
  bind_inv H. injection H as <- <-.
  cbn [selected_project active_project projects selected_project_index
       set_selected_project_index set_selected_project] in *.
  destruct (list_index_spec _ _ _ E2) as [Hi Hnth].
  pose proof (nth_error_In _ _ Hnth) as Hin.
  split; [reflexivity | split; [exact Hin | split]].
  - destruct (py_index_in_range _ _ Hi) as (x & Hidx & Hnth').
    rewrite Hidx. congruence.
  - destruct (select_project_catalog _ _ _ _ _ E1) as ([Hp _] & _ & _ & Hf).
    rewrite (project_dir_same_folder _ _ _ Hf).
    pose proof (get_projects_directories _ _ _ _ E0) as Hdirs.
    rewrite Forall_forall in Hdirs. apply Hdirs. rewrite <- Hp. exact Hin.
Qed.

(** X16. Start-up fails with [ValueError] when [projects/] holds project
    directories, none of them empty, none named by the record (or no record
    exists) and none called ["default"]: [select_project] falls back to the
    default name, which [self.projects.index] does not find. *)
Theorem startup_without_default now self0 w self1 root :
  read_log_file self0 w = Ok self1 ->
  projects_folder w = Some root ->
  map fst (filter is_dir root) <> [] ->
  (forall p, In p (map fst (filter is_dir root)) ->
             exists e es, project_dir w p = Some (e :: es)) ->
  ~ In (active_project self1) (map fst (filter is_dir root)) ->
  ~ In DEFAULT_PROJECT (map fst (filter is_dir root)) ->
  setup_project now self0 w = Raise ValueError.
Proof.
  intros Hread Hroot Hne Hfull Hactive Hdefault.
  unfold setup_project. rewrite Hread. cbn [bind].
  unfold ensure_projects_folder. rewrite Hroot.
  assert (Hdirs : Forall (fun p => project_dir w p <> None)
                    (map fst (filter is_dir root))).
  { apply Forall_forall. intros p Hp.
    destruct (Hfull p Hp) as (e & es & ->). discriminate. }
  destruct (count_files_total _ _ Hdirs (projects_dict self1)) as [dict Hcount].
  assert (Hget : get_projects self1 w
                 = Ok (set_projects (map fst (filter is_dir root))
                         (set_projects_dict dict self1), w)).
  { unfold get_projects. rewrite Hroot. cbn [of_option bind].
    destruct (map fst (filter is_dir root)) as [ | p0 l0] eqn:Hl;
      [now elim Hne | ].
    cbn [bind]. rewrite Hcount. reflexivity. }
  rewrite Hget. cbn [bind].
  unfold select_project. cbn [projects set_projects].
  rewrite (first_empty_find _ _ Hdirs).
  rewrite find_all_false.
  2: { intros p Hp. unfold dir_empty.
       destruct (Hfull p Hp) as (e & es & ->). reflexivity. }
  cbn [bind active_project set_projects set_projects_dict].
  rewrite (in_missing _ _ Hactive). cbn [bind].
  cbn [selected_project active_project projects set_selected_project
       set_active_project set_projects].
  rewrite (list_index_missing _ _ Hdefault). reflexivity.
Qed.

End StartupOutcome.

Lemma startup_selects_active_witness :
  setup_project 200 (set_cap true (init 150)) Example.empty_project_world
  = Ok (set_selected_project_index 1
          (set_selected_project "B"
             (reset_session "B" 200
                (set_projects ["A"; "B"]
                   (set_projects_dict [("A", 2); ("B", 0)]
                      (set_program_start_time (201 # 2)
                         (set_img_capture_index 2
                            (set_active_project "A"
                               (set_cap true (init 150))))))))),
        write_log_file
          (reset_session "B" 200 (set_cap true (init 150)))
          Example.empty_project_world)
  /\ Py.index ["A"; "B"] 1 = Ok "B"
  /\ project_dir Example.empty_project_world "B" <> None.
Proof.
  assert (Hsetup :
            setup_project 200 (set_cap true (init 150))
              Example.empty_project_world
            = Ok (set_selected_project_index 1
                    (set_selected_project "B"
                       (reset_session "B" 200
                          (set_projects ["A"; "B"]
                             (set_projects_dict [("A", 2); ("B", 0)]
                                (set_program_start_time (201 # 2)
                                   (set_img_capture_index 2
                                      (set_active_project "A"
                                         (set_cap true (init 150))))))))),
                  write_log_file
                    (reset_session "B" 200 (set_cap true (init 150)))
                    Example.empty_project_world))
    by (vm_compute; reflexivity).
  split; [exact Hsetup | ].
  destruct (@startup_selects_active decimal_text _ _ _ _ _ Hsetup)
    as (_ & _ & Hidx & Hdir).
  split; [exact Hidx | exact Hdir].
Defined.

Lemma startup_without_default_witness :
  setup_project 200 (set_cap true (init 150)) Example.one_project_world
  = Raise ValueError.
Proof.
  apply (@startup_without_default decimal_text 200 (set_cap true (init 150))
           Example.one_project_world
           (set_program_start_time 100
              (set_img_capture_index 7
                 (set_active_project "gone" (set_cap true (init 150)))))
           [("A", RDir Example.two_frames)]).
  - vm_compute. reflexivity.
  - reflexivity.
  - discriminate.
  - intros p [<- | []]. do 2 eexists. reflexivity.
  - intros [H | []]. discriminate H.
  - intros [H | []]. discriminate H.
Defined.

(** ** Sequences of captures *)

Lemma sequential_frames_snoc entries n data :
  sequential_frames entries n ->
  sequential_frames (entries ++ [(frame_name n, PFile data)])%list (n + 1).
Proof.
  intros [Hlen Hall]. split.
  - rewrite length_app. cbn [List.length]. lia.
  - intros name e Hin. apply in_app_or in Hin.
    destruct Hin as [Hin | [[= <- <-] | []]].
    + destruct (Hall _ _ Hin) as [Hfile (i & Hi & Hname)].
      split; [exact Hfile | ]. exists i. split; [lia | exact Hname].
    + split; [now exists data | ]. exists n. split; [lia | reflexivity].
Qed.

Section Captures.

Context {float_text : FloatText}.

Lemma capture_keeps_sequential fr t_stamp t_saved self w entries :
  cap self = true ->
  project_dir w (active_project self) = Some entries ->
  sequential_frames entries (img_capture_index self) ->
  exists self' w',
    capture_image (Some fr) t_stamp t_saved self w = Ok (self', w')
    /\ cap self' = true
    /\ active_project self' = active_project self
    /\ img_capture_index self' = img_capture_index self + 1
    /\ project_dir w' (active_project self)
       = Some (entries
               ++ [(frame_name (img_capture_index self),
                    PFile (stamped t_stamp fr self))])%list.
Proof.
  intros Hcap Hdir Hseq. do 2 eexists.
  split; [now apply capture_image_success | ].
  destruct (captured_frame t_saved self)
    as (_ & _ & _ & _ & Hc & Ha & _ & Hi & _).
  rewrite Hc, Ha, Hi.
  split; [exact Hcap | split; [reflexivity | split; [reflexivity | ]]].
  rewrite project_dir_write_log.
  exact (imwrite_sequential _ _ _ _ _ Hdir Hseq).
Qed.

Lemma captures_sequential shots :
  forall self w entries,
    cap self = true ->
    project_dir w (active_project self) = Some entries ->
    sequential_frames entries (img_capture_index self) ->
    exists self' w' added,
      captures shots self w = Ok (self', w')
      /\ img_capture_index self'
         = img_capture_index self + Z.of_nat (List.length shots)
      /\ active_project self' = active_project self
      /\ List.length added = List.length shots
      /\ project_dir w' (active_project self) = Some (entries ++ added)%list
      /\ sequential_frames (entries ++ added)%list (img_capture_index self').
Proof.
  induction shots as [ | [[fr t_stamp] t_saved] rest IH];
    intros self w entries Hcap Hdir Hseq.
  - exists self, w, []. cbn [captures List.length]. rewrite app_nil_r.
    split; [reflexivity | split; [lia | split; [reflexivity | ]]].
    split; [reflexivity | split; [exact Hdir | exact Hseq]].
  - destruct (capture_keeps_sequential fr t_stamp t_saved self w entries
                Hcap Hdir Hseq)
      as (self1 & w1 & Hrun & Hcap1 & Hact1 & Hidx1 & Hdir1).
    pose proof (sequential_frames_snoc _ _ (stamped t_stamp fr self) Hseq)
      as Hseq1.
    rewrite <- Hidx1 in Hseq1. rewrite <- Hact1 in Hdir1.
    destruct (IH self1 w1 _ Hcap1 Hdir1 Hseq1)
      as (self' & w' & added & Hrun' & Hidx' & Hact' & Hlen & Hdir' & Hseq').
    exists self', w'.
    exists ((frame_name (img_capture_index self),
             PFile (stamped t_stamp fr self)) :: added).
    cbn [captures]. rewrite Hrun. cbn [bind].
    rewrite <- app_assoc in Hdir', Hseq'. cbn [app] in Hdir', Hseq'.
    split; [exact Hrun' | split].
    + rewrite Hidx', Hidx1. cbn [List.length]. lia.
    + split; [congruence | ].
      split; [cbn [List.length]; now rewrite Hlen | ].
      rewrite <- Hact1. split; [exact Hdir' | exact Hseq'].
Qed.

(** X17. Starting with a project directory that holds exactly the frames
    [image_0 .. image_(n-1)] and the capture index [n], captures that
    succeed one after the other advance the capture index by one per
    capture, keep every frame that was there and add one file per capture,
    so that the directory again holds exactly the frames below the capture
    index: no index is reused and none is skipped. *)
Theorem captures_keep_frames_sequential shots self w entries self' w' :
  cap self = true ->
  project_dir w (active_project self) = Some entries ->
  sequential_frames entries (img_capture_index self) ->
  captures shots self w = Ok (self', w') ->
  exists added,
    img_capture_index self'
    = img_capture_index self + Z.of_nat (List.length shots)
    /\ active_project self' = active_project self
    /\ List.length added = List.length shots
    /\ project_dir w' (active_project self) = Some (entries ++ added)%list
    /\ sequential_frames (entries ++ added)%list (img_capture_index self').
Proof.
  intros Hcap Hdir Hseq Hrun.
  destruct (captures_sequential shots self w entries Hcap Hdir Hseq)
    as (self1 & w1 & added & Hrun1 & Hrest).
  rewrite Hrun1 in Hrun. injection Hrun as <- <-.
  exists added. exact Hrest.
Qed.

End Captures.

Lemma two_frames_sequential : sequential_frames Example.two_frames 2.
Proof.
  split; [reflexivity | ].
  intros name e [[= <- <-] | [[= <- <-] | []]].
  - split; [eexists; reflexivity | exists 0; split; [lia | reflexivity]].
  - split; [eexists; reflexivity | exists 1; split; [lia | reflexivity]].
Qed.

Lemma captures_keep_frames_sequential_witness :
  exists self' w' added,
    captures [(mkFrame 2 [0; 0; 0], 103%Q, 104%Q);
              (mkFrame 3 [0; 0; 0], 109%Q, 110%Q)]
      Example.recording Example.two_frames_world = Ok (self', w')
    /\ img_capture_index self' = 4
    /\ project_dir w' "A" = Some (Example.two_frames ++ added)%list
    /\ map fst added = ["image_2.jpg"; "image_3.jpg"].
Proof.
  destruct (captures [(mkFrame 2 [0; 0; 0], 103%Q, 104%Q);
                      (mkFrame 3 [0; 0; 0], 109%Q, 110%Q)]
              Example.recording Example.two_frames_world)
    as [[self' w'] | e] eqn:Hrun; [ | vm_compute in Hrun; discriminate].
  destruct (@captures_keep_frames_sequential decimal_text
              [(mkFrame 2 [0; 0; 0], 103%Q, 104%Q);
               (mkFrame 3 [0; 0; 0], 109%Q, 110%Q)]
              Example.recording Example.two_frames_world Example.two_frames
              self' w' eq_refl eq_refl two_frames_sequential Hrun)
    as (added & Hidx & _ & _ & Hdir & _).
  exists self', w', added.
  split; [reflexivity | split; [exact Hidx | split; [exact Hdir | ]]].
  vm_compute in Hrun. injection Hrun as <- <-.
  vm_compute in Hdir. injection Hdir as Hadded. rewrite <- Hadded.
  reflexivity.
Defined.

(** ** The display *)

Lemma speed_icon_total speed : exists icon, speed_icon speed = Some icon.
Proof.
  unfold speed_icon.
  destruct (Z.eqb_spec speed 1) as [H1 | H1]; [now eexists | ].
  destruct (speed >? 1) eqn:Hgt; [now eexists | ].
  destruct (speed <? 1) eqn:Hlt; [now eexists | ].
  apply Z.ltb_ge in Hlt. rewrite Z.gtb_ltb in Hgt. apply Z.ltb_ge in Hgt.
  lia.
Qed.

Lemma speed_icon_cases speed :
  exists icon,
    speed_icon speed = Some icon
    /\ (speed = 1 -> icon = "> ")
    /\ (1 < speed -> icon = ">>")
    /\ (speed < 1 -> icon = "<<").
Proof.
  unfold speed_icon.
  destruct (Z.eqb_spec speed 1) as [H1 | H1].
  { eexists. split; [reflexivity | ].
    split; [reflexivity | split; intros; lia]. }
  destruct (speed >? 1) eqn:Hgt.
  { rewrite Z.gtb_ltb in Hgt. apply Z.ltb_lt in Hgt.
    eexists. split; [reflexivity | ].
    split; [intros; lia | split; [reflexivity | intros; lia]]. }
  rewrite Z.gtb_ltb in Hgt. apply Z.ltb_ge in Hgt.
  destruct (Z.ltb_spec speed 1) as [Hlt | Hge]; [ | lia].
  eexists. split; [reflexivity | ].
  split; [intros; lia | split; [intros; lia | reflexivity]].
Qed.

(** X18. The three tests on the speed in [update_display] bind [icon] for
    every integer speed: ["> "] at 1, [">>"] above and ["<<"] below, so the
    use of [icon] never fails, whatever frame is displayed. *)
Theorem display_icon_is_bound index self w :
  update_display index self w <> UnboundIcon
  /\ exists icon,
       speed_icon (playback_speed self) = Some icon
       /\ (playback_speed self = 1 -> icon = "> ")
       /\ (1 < playback_speed self -> icon = ">>")
       /\ (playback_speed self < 1 -> icon = "<<").
Proof.
  destruct (speed_icon_cases (playback_speed self)) as [icon Hicon].
  split; [ | exists icon; exact Hicon].
  unfold update_display. rewrite (proj1 Hicon).
  destruct (imread w (selected_project self) (frame_name index)) as [fr | ];
    [ | discriminate].
  destruct (map_255_time (patch fr)); discriminate.
Qed.

Section Display.

Context {float_text : FloatText}.

(** X19. A frame that [capture_image] stored is displayed with the time
    of day of the seconds that had elapsed in the session when it was
    stamped: for a viewer whose selected project is the active one,
    [update_display] of the index just captured shows that time, the
    project name and the speed text. *)
Theorem captured_frame_shows_its_time fr t_stamp t_saved self w entries
  self' w' viewer :
  cap self = true ->
  project_dir w (active_project self) = Some entries ->
  sequential_frames entries (img_capture_index self) ->
  capture_image (Some fr) t_stamp t_saved self w = Ok (self', w') ->
  selected_project viewer = active_project self ->
  exists icon,
    speed_icon (playback_speed viewer) = Some icon
    /\ update_display (img_capture_index self) viewer w'
       = Shown (mkOverlay
                  (time_of_day
                     (Py.int_of_float
                        (t_stamp - program_start_time self)%Q))
                  (active_project self)
                  (icon ++ Py.str_int (Z.abs (playback_speed viewer))
                   ++ "x")).
Proof.
  intros Hcap Hdir Hseq Hrun Hsel.
  destruct (capture_keeps_sequential fr t_stamp t_saved self w entries
              Hcap Hdir Hseq) as (s1 & w1 & Hrun1 & _ & _ & _ & Hdir1).
  rewrite Hrun1 in Hrun. injection Hrun as <- <-.
  destruct (speed_icon_total (playback_speed viewer)) as [icon Hicon].
  exists icon. split; [exact Hicon | ].
  unfold update_display, imread, stored_frame. rewrite Hsel, Hdir1.
  rewrite (lookup_app_fresh _ _ _ (sequential_frames_fresh _ _ Hseq)).
  cbn [patch stamped]. rewrite decode_encode_any, Hicon. reflexivity.
Qed.

End Display.

Lemma captured_frame_shows_its_time_witness :
  exists self' w',
    capture_image (Some (mkFrame 2 [0; 0; 0])) 3823 3824 Example.recording
      Example.two_frames_world = Ok (self', w')
    /\ update_display 2 (set_playback_speed (-32) Example.recording) w'
       = Shown (mkOverlay [1; 2; 3] "A" "<<32x").
Proof.
  destruct (capture_image (Some (mkFrame 2 [0; 0; 0])) 3823 3824
              Example.recording Example.two_frames_world)
    as [[self' w'] | e] eqn:Hrun; [ | vm_compute in Hrun; discriminate].
  exists self', w'. split; [reflexivity | ].
  destruct (@captured_frame_shows_its_time decimal_text
              (mkFrame 2 [0; 0; 0]) 3823 3824 Example.recording
              Example.two_frames_world Example.two_frames self' w'
              (set_playback_speed (-32) Example.recording)
              eq_refl eq_refl two_frames_sequential Hrun eq_refl)
    as (icon & Hicon & Hshow).
  vm_compute in Hicon. injection Hicon as <-. exact Hshow.
Defined.

(** ** The wait *)

(** X20. While the speed is 1 or a table entry in either direction, as it
    is from start-up on, the division for the wait of [play_movie] does
    not fail and the wait is between 19 and 5000 milliseconds: never 0,
    the value for which [cv2.waitKey] waits without limit. *)
Theorem wait_is_bounded self :
  speed_ok self ->
  exists delay,
    waitkey_delay self = Ok delay /\ 19 <= delay <= 5000.
Proof.
  intros [Hin _]. unfold waitkey_delay, Py.truediv_ok.
  cbn in Hin.
  destruct Hin as [H | [H | [H | [H | [H | [H | []]]]]]];
    rewrite <- H; cbn [bind Z.eqb]; eexists;
    (split; [reflexivity | ]); cbn; lia.
Qed.

Lemma wait_is_bounded_witness :
  exists delay,
    waitkey_delay (set_playback_speed (-256) (init 0)) = Ok delay
    /\ 19 <= delay <= 5000.
Proof.
  apply (wait_is_bounded (set_playback_speed (-256) (init 0))).
  split; [cbn; tauto | cbn; lia].
Defined.

(** ** Restart *)

Lemma list_index_found x l :
  In x l -> exists i, Py.list_index x l = Ok i.
Proof.
  induction l as [ | y l IH]; intros Hin; [destruct Hin | ].
  cbn [Py.list_index]. destruct (String.eqb_spec y x) as [-> | Hne].
  - now exists 0.
  - destruct Hin as [-> | Hin]; [now elim Hne | ].
    destruct (IH Hin) as [i ->]. cbn [bind]. now eexists.
Qed.

Lemma in_found x l : In x l -> Py.in_ x l = true.
Proof.
  intros Hin. unfold Py.in_. apply existsb_exists. exists x.
  split; [exact Hin | apply String.eqb_refl].
Qed.

Section Restart.

Context {float_text : FloatText}.

Lemma get_projects_existing self w root :
  projects_folder w = Some root ->
  map fst (filter is_dir root) <> [] ->
  Forall (fun p => project_dir w p <> None) (map fst (filter is_dir root)) ->
  exists dict,
    get_projects self w
    = Ok (set_projects (map fst (filter is_dir root))
            (set_projects_dict dict self), w).
Proof.
  intros Hroot Hne Hdirs.
  destruct (count_files_total _ _ Hdirs (projects_dict self)) as [dict Hcount].
  exists dict. unfold get_projects. rewrite Hroot. cbn [of_option bind].
  destruct (map fst (filter is_dir root)) as [ | p0 l0] eqn:Hl;
    [now elim Hne | ].
  cbn [bind]. rewrite Hcount. reflexivity.
Qed.

(** X21. A restart resumes the session.  When [log.txt] holds the record
    written for a state [s] (a project name without newline, carriage
    return or white space at its ends, a start time that prints on one
    line and parses back), the project of [s] is in the catalog and no
    project directory is empty, [setup_project] on a new object returns
    with the active project, capture index and start time of [s], selects
    that project, and writes nothing. *)
Theorem restart_resumes_session c t0 now s w root :
  log_follows s w ->
  Py.strip (active_project s) = active_project s ->
  Py.occurs Py.LF (active_project s) = false ->
  Py.occurs Py.CR (active_project s) = false ->
  Py.occurs Py.LF (float_str (program_start_time s)) = false ->
  Py.occurs Py.CR (float_str (program_start_time s)) = false ->
  float_ (Py.strip (float_str (program_start_time s)))
  = Some (program_start_time s) ->
  projects_folder w = Some root ->
  (forall p, In p (map fst (filter is_dir root)) ->
             exists e es, project_dir w p = Some (e :: es)) ->
  In (active_project s) (map fst (filter is_dir root)) ->
  exists self,
    setup_project now (set_cap c (init t0)) w = Ok (self, w)
    /\ active_project self = active_project s
    /\ selected_project self = active_project s
    /\ img_capture_index self = img_capture_index s
    /\ program_start_time self = program_start_time s
    /\ img_max_index self = 0.
Proof.
  intros Hlog Hstrip Hlf Hcr Hflf Hfcr Hfloat Hroot Hfull Hactive.
  assert (Hne : map fst (filter is_dir root) <> []).
  { intros H. rewrite H in Hactive. destruct Hactive. }
  assert (Hdirs : Forall (fun p => project_dir w p <> None)
                    (map fst (filter is_dir root))).
  { apply Forall_forall. intros p Hp.
    destruct (Hfull p Hp) as (e & es & ->). discriminate. }
  unfold setup_project.
  rewrite (read_log_record s _ w Hlog Hstrip Hlf Hcr Hflf Hfcr Hfloat).
  cbn [bind]. unfold ensure_projects_folder. rewrite Hroot.
  destruct (get_projects_existing
              (set_program_start_time (program_start_time s)
                 (set_img_capture_index (img_capture_index s)
                    (set_active_project (active_project s)
                       (set_cap c (init t0))))) w root Hroot Hne Hdirs)
    as [dict ->].
  cbn [bind]. unfold select_project. cbn [projects set_projects].
  rewrite (first_empty_find _ _ Hdirs).
  rewrite find_all_false.
  2: { intros p Hp. unfold dir_empty.
       destruct (Hfull p Hp) as (e & es & ->). reflexivity. }
  cbn [bind active_project set_projects set_projects_dict
       set_program_start_time set_img_capture_index set_active_project].
  rewrite (in_found _ _ Hactive). cbn [bind].
  cbn [selected_project active_project projects set_selected_project
       set_projects set_projects_dict set_program_start_time
       set_img_capture_index set_active_project].
  destruct (list_index_found _ _ Hactive) as [i ->]. cbn [bind].
  eexists. split; [reflexivity | ]. repeat split.
Qed.

End Restart.

Lemma restart_resumes_session_witness :
  exists self,
    setup_project 200 (set_cap true (init 150)) Example.two_frames_world
    = Ok (self, Example.two_frames_world)
    /\ active_project self = "A"
    /\ selected_project self = "A"
    /\ img_capture_index self = 2
    /\ program_start_time self = 201 # 2
    /\ img_max_index self = 0.
Proof.
  apply (@restart_resumes_session decimal_text true 150 200 Example.resumed
           Example.two_frames_world [("A", RDir Example.two_frames)]);
    try reflexivity.
  - intros p [<- | []]. do 2 eexists. reflexivity.
  - now left.
Defined.

(** ** An empty [projects/] folder *)

(** X22. When [projects/] holds no directory, [get_projects] creates
    [projects/default], lists it as the only project and counts 0 files in
    it; but when a plain file named [default] is in the way, it raises
    [FileExistsError]. *)
Theorem get_projects_without_directories self w root :
  projects_folder w = Some root ->
  filter is_dir root = [] ->
  (lookup DEFAULT_PROJECT root = None ->
   get_projects self w
   = Ok (set_projects [DEFAULT_PROJECT]
           (set_projects_dict (update DEFAULT_PROJECT 0 (projects_dict self))
              self),
         set_projects_folder
           (Some (root ++ [(DEFAULT_PROJECT, RDir [])])%list) w))
  /\ (lookup DEFAULT_PROJECT root = Some RFile ->
      get_projects self w = Raise FileExistsError).
Proof.
  intros Hroot Hnone. unfold get_projects. rewrite Hroot.
  cbn [of_option bind]. rewrite Hnone.
  cbn [bind map]. unfold ensure_project_directory. rewrite Hroot.
  split; intros Hl; rewrite Hl; [ | reflexivity].
  cbn [bind count_files]. unfold listdir_project.
  cbn [projects_folder set_projects_folder].
  rewrite (lookup_app_fresh _ _ _ Hl). reflexivity.
Qed.

Lemma get_projects_without_directories_witness :
  get_projects (init 0) (mkWorld None (Some [("notes.txt", RFile)]))
  = Ok (set_projects ["default"] (set_projects_dict [("default", 0)] (init 0)),
        mkWorld None (Some [("notes.txt", RFile); ("default", RDir [])]))
  /\ get_projects (init 0) (mkWorld None (Some [("default", RFile)]))
     = Raise FileExistsError.
Proof.
  split.
  - exact (proj1 (get_projects_without_directories (init 0)
                    (mkWorld None (Some [("notes.txt", RFile)]))
                    [("notes.txt", RFile)] eq_refl eq_refl) eq_refl).
  - exact (proj2 (get_projects_without_directories (init 0)
                    (mkWorld None (Some [("default", RFile)]))
                    [("default", RFile)] eq_refl eq_refl) eq_refl).
Defined.
